(** * Task management system (zad2.py): a shallow embedding and its properties

    The development follows the layout of the program:
    - [Py]: the fragment of the Python runtime the program relies on
      (JSON-shaped values, exceptions, [==], [<], truthiness, [list.sort]);
    - [Datetime]: [datetime] objects, [strftime] and [strptime] for the two
      formats the program uses;
    - [Sys]: the outside world (clock, console, files) and the effect monad;
    - the classes [Task] (with its three subclasses) and [Project];
    - the vocabulary in which the properties are stated, and sample data;
    - the properties: dates, status transitions, serialisation, loading,
      overdue tasks, sorting. *)

From Stdlib Require Import ZArith String Ascii List Bool Lia.
From stdpp Require Import base option list gmap strings sorting.

Set Default Goal Selector "!".

(* ===================================================================== *)
(** * The Python fragment                                                 *)
(* ===================================================================== *)

Module Py.

(** Values that can travel through [json.loads] / [json.dumps] and end up as
    attributes of objects: [None], booleans, integers, strings, lists and
    string-keyed dictionaries.  A dictionary keeps insertion order, as in
    Python; keys are unique in every dictionary built by [dict_set].
    Strings are byte strings (UTF-8); byte order and code-point order agree. *)
#[warnings="-register-all"]
Inductive value : Type :=
| VNone
| VBool (b : bool)
| VInt (n : Z)
| VStr (s : string)
| VList (l : list value)
| VDict (d : list (string * value)).

Abbreviation dict := (list (string * value)).

(** Exceptions raised by the program and by the library calls it makes.
    [ValueError] carries its origin so that the program's own
    "Unknown task type" error can be told apart from the library's. *)
Inductive value_error : Type :=
| UnknownTaskType (task_type : value)  (* raise ValueError(f"Unknown task type: ...") *)
| NotInList                            (* list.index *)
| BadTimeFormat                        (* datetime.strptime *)
| JSONDecodeError.                     (* json.load on text that is not JSON *)

Inductive exn : Type :=
| KeyError (k : string)
| TypeError
| AttributeError
| ValueError (why : value_error)
| FileNotFoundError.

Inductive result (A : Type) : Type :=
| Ok (a : A)
| Raise (e : exn).
Arguments Ok {A} a.
Arguments Raise {A} e.

Definition result_bind {A B} (f : A → result B) (r : result A) : result B :=
  match r with Ok a => f a | Raise e => Raise e end.

#[global] Instance result_mret : MRet result := @Ok.
#[global] Instance result_mbind : MBind result := @result_bind.

Definition is_ok {A} (r : result A) : bool :=
  match r with Ok _ => true | Raise _ => false end.

(** [[f(x) for x in l]] for a fallible [f]: the first exception aborts. *)
Fixpoint result_mapM {A B} (f : A → result B) (l : list A) : result (list B) :=
  match l with
  | [] => Ok []
  | x :: l' => y ← f x; ys ← result_mapM f l'; Ok (y :: ys)
  end.

(** ** Dictionaries *)

Fixpoint dict_lookup (k : string) (d : dict) : option value :=
  match d with
  | [] => None
  | (k', v) :: d' => if String.eqb k k' then Some v else dict_lookup k d'
  end.

(** [d[k] = v]: overwrite in place, or append a new key at the end. *)
Fixpoint dict_set (k : string) (v : value) (d : dict) : dict :=
  match d with
  | [] => [(k, v)]
  | (k', v') :: d' =>
      if String.eqb k k' then (k, v) :: d' else (k', v') :: dict_set k v d'
  end.

(** [{**d, k: v, ...}] *)
Definition dict_update (d extra : dict) : dict :=
  foldl (λ acc kv, dict_set kv.1 kv.2 acc) d extra.

(** ** Operators *)

(** [a == b]. Booleans are integers ([True == 1]); dictionaries compare
    regardless of key order. *)
Fixpoint py_eq (a b : value) {struct a} : bool :=
  match a, b with
  | VNone, VNone => true
  | VBool x, VBool y => Bool.eqb x y
  | VBool x, VInt y => (Z.b2z x =? y)%Z
  | VInt x, VBool y => (x =? Z.b2z y)%Z
  | VInt x, VInt y => (x =? y)%Z
  | VStr x, VStr y => String.eqb x y
  | VList xs, VList ys =>
      (fix go (xs ys : list value) : bool :=
         match xs, ys with
         | [], [] => true
         | x :: xs', y :: ys' => py_eq x y && go xs' ys'
         | _, _ => false
         end) xs ys
  | VDict xs, VDict ys =>
      Nat.eqb (length xs) (length ys) &&
      (fix go (xs : dict) : bool :=
         match xs with
         | [] => true
         | (k, x) :: xs' =>
             match dict_lookup k ys with
             | Some y => py_eq x y && go xs'
             | None => false
             end
         end) xs
  | _, _ => false
  end.

(** [bool(v)], as used by [if v], [a and b], [a or b]. *)
Definition py_truthy (v : value) : bool :=
  match v with
  | VNone => false
  | VBool b => b
  | VInt n => negb (n =? 0)%Z
  | VStr s => negb (String.eqb s "")
  | VList l => match l with [] => false | _ => true end
  | VDict d => match d with [] => false | _ => true end
  end.

(** Lists and dictionaries cannot be dictionary keys. *)
Definition hashable (v : value) : bool :=
  match v with
  | VList _ | VDict _ => false
  | _ => true
  end.

Definition as_int (v : value) : option Z :=
  match v with
  | VInt n => Some n
  | VBool b => Some (Z.b2z b)
  | _ => None
  end.

(** [a < b]. Defined between numbers, between strings and between lists
    (lexicographic: the first pair of unequal elements decides);
    everything else raises [TypeError]. *)
Fixpoint py_lt (a b : value) {struct a} : result bool :=
  match a, b with
  | VStr x, VStr y => Ok (String.ltb x y)
  | VList xs, VList ys =>
      (fix go (xs ys : list value) : result bool :=
         match xs, ys with
         | [], [] => Ok false
         | [], _ :: _ => Ok true
         | _ :: _, [] => Ok false
         | x :: xs', y :: ys' => if py_eq x y then go xs' ys' else py_lt x y
         end) xs ys
  | _, _ =>
      match as_int a, as_int b with
      | Some x, Some y => Ok (x <? y)%Z
      | _, _ => Raise TypeError
      end
  end.

(** [obj[k]] for a string [k]: only dictionaries accept a string subscript. *)
Definition py_getitem (obj : value) (k : string) : result value :=
  match obj with
  | VDict d =>
      match dict_lookup k d with
      | Some v => Ok v
      | None => Raise (KeyError k)
      end
  | _ => Raise TypeError
  end.

(** [obj.get(k, default)]: only dictionaries have a [get] method. *)
Definition py_get (obj : value) (k : string) (default : value) : result value :=
  match obj with
  | VDict d => Ok (from_option id default (dict_lookup k d))
  | _ => Raise AttributeError
  end.

(** [obj.items()] *)
Definition py_items (obj : value) : result dict :=
  match obj with
  | VDict d => Ok d
  | _ => Raise AttributeError
  end.

Fixpoint is_prefix (p s : string) : bool :=
  match p, s with
  | EmptyString, _ => true
  | String a p', String b s' => Ascii.eqb a b && is_prefix p' s'
  | String _ _, EmptyString => false
  end.

Fixpoint is_substring (p s : string) : bool :=
  is_prefix p s ||
  match s with
  | EmptyString => false
  | String _ s' => is_substring p s'
  end.

(** [k in obj] for a string [k]: key membership for a dictionary, element
    membership for a list, substring test for a string. *)
Definition py_contains (k : string) (obj : value) : result bool :=
  match obj with
  | VDict d => Ok (bool_decide (is_Some (dict_lookup k d)))
  | VList l => Ok (existsb (py_eq (VStr k)) l)
  | VStr s => Ok (is_substring k s)
  | _ => Raise TypeError
  end.

Fixpoint string_chars (s : string) : list value :=
  match s with
  | EmptyString => []
  | String a s' => VStr (String a EmptyString) :: string_chars s'
  end.

(** [for x in obj]: the elements of a list, the keys of a dictionary, the
    characters of a string. *)
Definition py_iter (obj : value) : result (list value) :=
  match obj with
  | VList l => Ok l
  | VDict d => Ok (map (λ kv, VStr kv.1) d)
  | VStr s => Ok (string_chars s)
  | _ => Raise TypeError
  end.

(** [l.index(v)]: position of the first element equal to [v]. *)
Fixpoint list_index (l : list value) (v : value) : result nat :=
  match l with
  | [] => Raise (ValueError NotInList)
  | x :: l' => if py_eq x v then Ok 0 else i ← list_index l' v; Ok (S i)
  end.

(** ** [list.sort(key=...)]

    The builtin sort is specified by its contract: it is stable, it compares
    the keys with [<] only, and an exception raised by a comparison aborts
    the sort and propagates.  The model is the stable insertion sort on the
    list of (key, element) pairs: an element is placed after the elements
    already sorted that are strictly smaller. *)
Section Sort.
Context {K A : Type} (lt : K → K → result bool).

Fixpoint sort_insert (x : K * A) (l : list (K * A)) : result (list (K * A)) :=
  match l with
  | [] => Ok [x]
  | y :: l' =>
      c ← lt y.1 x.1;
      if (c : bool) then l'' ← sort_insert x l'; Ok (y :: l'') else Ok (x :: y :: l')
  end.

Fixpoint sort_pairs (l : list (K * A)) : result (list (K * A)) :=
  match l with
  | [] => Ok []
  | x :: l' => s ← sort_pairs l'; sort_insert x s
  end.

(** The keys are computed for the whole list before any comparison. *)
Definition list_sort (key : A → result K) (l : list A) : result (list A) :=
  ks ← result_mapM (λ x, k ← key x; Ok (k, x)) l;
  s ← sort_pairs ks;
  Ok (map snd s).
End Sort.

End Py.
Export Py.

(* ===================================================================== *)
(** * [datetime]                                                          *)
(* ===================================================================== *)

Module Datetime.

Record datetime : Type := mkDatetime {
  year : Z; month : Z; day : Z;
  hour : Z; minute : Z; second : Z; microsecond : Z
}.

#[global] Instance datetime_eq_dec : EqDecision datetime.
Proof. solve_decision. Defined.

Definition is_leap (y : Z) : bool :=
  ((y mod 4 =? 0) && (negb (y mod 100 =? 0) || (y mod 400 =? 0)))%Z.

Definition days_in_month (y m : Z) : Z :=
  if (m =? 2)%Z then (if is_leap y then 29 else 28)%Z
  else if ((m =? 4) || (m =? 6) || (m =? 9) || (m =? 11))%Z then 30%Z
  else 31%Z.

(** The dates a [datetime] object can hold (MINYEAR = 1, MAXYEAR = 9999). *)
Definition valid_date (y m d : Z) : bool :=
  ((1 <=? y) && (y <=? 9999) && (1 <=? m) && (m <=? 12) &&
   (1 <=? d) && (d <=? days_in_month y m))%Z.

Definition valid_time (h mi s us : Z) : bool :=
  ((0 <=? h) && (h <=? 23) && (0 <=? mi) && (mi <=? 59) &&
   (0 <=? s) && (s <=? 59) && (0 <=? us) && (us <=? 999999))%Z.

Definition valid (t : datetime) : bool :=
  valid_date (year t) (month t) (day t) &&
  valid_time (hour t) (minute t) (second t) (microsecond t).

(** [a < b] on datetimes: lexicographic on the fields. *)
Definition lex (c1 c2 : comparison) : comparison :=
  match c1 with Eq => c2 | _ => c1 end.

Definition compare (a b : datetime) : comparison :=
  lex (year a ?= year b)%Z (lex (month a ?= month b)%Z (lex (day a ?= day b)%Z
  (lex (hour a ?= hour b)%Z (lex (minute a ?= minute b)%Z
  (lex (second a ?= second b)%Z (microsecond a ?= microsecond b)%Z))))).

Definition ltb (a b : datetime) : bool :=
  match compare a b with Lt => true | _ => false end.

(** What survives formatting with ["%Y-%m-%d %H:%M:%S"]. *)
Definition to_seconds (t : datetime) : datetime :=
  mkDatetime (year t) (month t) (day t) (hour t) (minute t) (second t) 0.

(** ** [strftime]

    Fields are zero padded ([%Y] to four digits, the others to two).  For
    years below 1000 the width of [%Y] depends on the platform's C library;
    the statements about formatting below are for years from 1000 on. *)
Definition digit (n : Z) : ascii := ascii_of_nat (48 + Z.to_nat n).

Definition pad2 (n : Z) (rest : string) : string :=
  String (digit (n / 10)) (String (digit (n mod 10)) rest).

Definition pad4 (n : Z) (rest : string) : string :=
  String (digit (n / 1000)) (String (digit (n / 100 mod 10)) (pad2 (n mod 100) rest)).

(** [t.strftime("%Y-%m-%d")] followed by [rest] *)
Definition format_date (t : datetime) (rest : string) : string :=
  pad4 (year t) (String "-" (pad2 (month t) (String "-" (pad2 (day t) rest)))).

Definition strftime_date (t : datetime) : string := format_date t "".

(** [t.strftime("%Y-%m-%d %H:%M:%S")] *)
Definition strftime_datetime (t : datetime) : string :=
  format_date t (String " " (pad2 (hour t) (String ":" (pad2 (minute t)
    (String ":" (pad2 (second t) ""))))))%string.

(** ** [strptime]

    The library turns the format into a regular expression and matches it
    against the start of the text:
      [%Y] = [\d\d\d\d], [%m] = [1[0-2]|0[1-9]|[1-9]],
      [%d] = [3[01]|[12]\d|0[1-9]|[1-9]| [1-9]], [%H] = [2[0-3]|[0-1]\d|\d],
      [%M] = [[0-5]\d|\d], [%S] = [6[0-1]|[0-5]\d|\d], a blank = [\s+];
    text left over, or a date that does not exist, is a [ValueError].
    Only ASCII digits and ASCII white space are recognised here. *)
Definition digit_val (a : ascii) : option Z :=
  let n := nat_of_ascii a in
  if (48 <=? n)%nat && (n <=? 57)%nat then Some (Z.of_nat (n - 48)) else None.

(** A number written with two digits when [two] accepts them, else with
    one digit when [one] accepts it (the order of the alternatives). *)
Definition parse_field (two : Z → Z → bool) (one : Z → bool) (s : string)
  : option (Z * string) :=
  match s with
  | String a s1 =>
      x ← digit_val a;
      match s1 with
      | String b s2 =>
          match digit_val b with
          | Some y =>
              if two x y then Some (10 * x + y, s2)%Z
              else if one x then Some (x, s1) else None
          | None => if one x then Some (x, s1) else None
          end
      | EmptyString => if one x then Some (x, s1) else None
      end
  | EmptyString => None
  end.

Definition parse_year (s : string) : option (Z * string) :=
  match s with
  | String a (String b (String c (String d rest))) =>
      x ← digit_val a; y ← digit_val b; z ← digit_val c; w ← digit_val d;
      Some (1000 * x + 100 * y + 10 * z + w, rest)%Z
  | _ => None
  end.

Definition parse_month : string → option (Z * string) :=
  parse_field (λ x y, ((x =? 1) && (y <=? 2) || (x =? 0) && (1 <=? y))%Z)
              (λ x, (1 <=? x)%Z).

Definition parse_day (s : string) : option (Z * string) :=
  match s with
  | String " " (String b rest) =>
      y ← digit_val b; if (1 <=? y)%Z then Some (y, rest) else None
  | _ =>
      parse_field (λ x y, ((x =? 3) && (y <=? 1) || (x =? 1) || (x =? 2)
                           || (x =? 0) && (1 <=? y))%Z)
                  (λ x, (1 <=? x)%Z) s
  end.

Definition parse_hour : string → option (Z * string) :=
  parse_field (λ x y, ((x =? 2) && (y <=? 3) || (x <=? 1))%Z) (λ _, true).

Definition parse_minute : string → option (Z * string) :=
  parse_field (λ x _, (x <=? 5)%Z) (λ _, true).

Definition parse_second : string → option (Z * string) :=
  parse_field (λ x y, ((x =? 6) && (y <=? 1) || (x <=? 5))%Z) (λ _, true).

Definition expect (c : ascii) (s : string) : option string :=
  match s with
  | String a rest => if Ascii.eqb a c then Some rest else None
  | EmptyString => None
  end.

Definition is_space (a : ascii) : bool :=
  let n := nat_of_ascii a in
  (n =? 32)%nat || (9 <=? n)%nat && (n <=? 13)%nat || (28 <=? n)%nat && (n <=? 31)%nat.

Fixpoint skip_spaces (s : string) : string :=
  match s with
  | String a rest => if is_space a then skip_spaces rest else s
  | EmptyString => s
  end.

(** [\s+] *)
Definition expect_spaces (s : string) : option string :=
  match s with
  | String a rest => if is_space a then Some (skip_spaces rest) else None
  | EmptyString => None
  end.

Definition parse_date (s : string) : option (Z * Z * Z * string) :=
  '(y, s) ← parse_year s; s ← expect "-" s;
  '(m, s) ← parse_month s; s ← expect "-" s;
  '(d, s) ← parse_day s;
  Some (y, m, d, s).

Definition parse_time (s : string) : option (Z * Z * Z * string) :=
  '(h, s) ← parse_hour s; s ← expect ":" s;
  '(mi, s) ← parse_minute s; s ← expect ":" s;
  '(sec, s) ← parse_second s;
  Some (h, mi, sec, s).

(** [datetime.strptime(v, "%Y-%m-%d")] *)
Definition strptime_date (v : value) : result datetime :=
  match v with
  | VStr s =>
      match parse_date s with
      | Some (y, m, d, EmptyString) =>
          if valid_date y m d then Ok (mkDatetime y m d 0 0 0 0)
          else Raise (ValueError BadTimeFormat)
      | _ => Raise (ValueError BadTimeFormat)
      end
  | _ => Raise TypeError
  end.

(** [datetime.strptime(v, "%Y-%m-%d %H:%M:%S")] *)
Definition strptime_datetime (v : value) : result datetime :=
  match v with
  | VStr s =>
      match '(y, m, d, s) ← parse_date s; s ← expect_spaces s;
            '(h, mi, sec, s) ← parse_time s; Some (y, m, d, h, mi, sec, s) with
      | Some (y, m, d, h, mi, sec, EmptyString) =>
          if valid_date y m d && valid_time h mi sec 0
          then Ok (mkDatetime y m d h mi sec 0)
          else Raise (ValueError BadTimeFormat)
      | _ => Raise (ValueError BadTimeFormat)
      end
  | _ => Raise TypeError
  end.

End Datetime.
Export Datetime(datetime, mkDatetime, year, month, day, hour, minute, second,
                microsecond, strftime_date, strftime_datetime, strptime_date,
                strptime_datetime).


(* ===================================================================== *)
(** * The outside world and the effect monad                              *)
(* ===================================================================== *)

Module Sys.

(** The text of a file, as [json.load] sees it: either the encoding of a
    document, or something that is not JSON.  [json.dump] and [json.load]
    belong to the standard library and are taken to be inverse to each
    other, so a JSON text is identified with the value it encodes. *)
Inductive file : Type :=
| JsonText (doc : value)
| OtherText.

(** [clock n] is what the [n]-th call of [datetime.now()] returns, [ticks]
    counts the calls made so far, [stdout] collects the printed lines. *)
Record World : Type := mkWorld {
  clock : nat → datetime;
  ticks : nat;
  stdout : list string;
  files : gmap string file
}.

(** Computations with state [S] that return or raise; the state reached
    when an exception is raised is kept, as assignments made before a
    [raise] stay in force. *)
Definition M (S A : Type) : Type := S → result A * S.

Definition M_ret {S A} (a : A) : M S A := λ s, (Ok a, s).

Definition M_bind {S A B} (f : A → M S B) (m : M S A) : M S B :=
  λ s, match m s with
       | (Ok a, s') => f a s'
       | (Raise e, s') => (Raise e, s')
       end.

#[global] Instance M_mret S : MRet (M S) := @M_ret S.
#[global] Instance M_mbind S : MBind (M S) := @M_bind S.

Definition raise {S A} (e : exn) : M S A := λ s, (Raise e, s).

(** A pure computation that may raise. *)
Definition lift {S A} (r : result A) : M S A := λ s, (r, s).

(** [try: body except <handled>: handler] *)
Definition try_except {S A} (body : M S A) (handler : exn → option (M S A)) : M S A :=
  λ s, match body s with
       | (Ok a, s') => (Ok a, s')
       | (Raise e, s') =>
           match handler e with
           | Some h => h s'
           | None => (Raise e, s')
           end
       end.

Fixpoint mapM {S A B} (f : A → M S B) (l : list A) : M S (list B) :=
  match l with
  | [] => mret []
  | x :: l' => y ← f x; ys ← mapM f l'; mret (y :: ys)
  end.

(** [datetime.now()] *)
Definition now : M World datetime :=
  λ w, (Ok (clock w (ticks w)),
        mkWorld (clock w) (S (ticks w)) (stdout w) (files w)).

(** [print(line)] *)
Definition print (line : string) : M World () :=
  λ w, (Ok (), mkWorld (clock w) (ticks w) (stdout w ++ [line]) (files w)).

(** [with open(filename) as f: json.load(f)] *)
Definition read_json (filename : string) : M World value :=
  λ w, match files w !! filename with
       | Some (JsonText doc) => (Ok doc, w)
       | Some OtherText => (Raise (ValueError JSONDecodeError), w)
       | None => (Raise FileNotFoundError, w)
       end.

Definition write_file (filename : string) (f : file) : M World () :=
  λ w, (Ok (), mkWorld (clock w) (ticks w) (stdout w) (<[filename := f]> (files w))).

End Sys.
Export Sys.

(* ===================================================================== *)
(** * class Task and its subclasses                                       *)
(* ===================================================================== *)

(** The concrete classes.  Each one is entered into [Task.registry] under
    its name by [__init_subclass__] when it is defined. *)
Inductive task_class : Type := RegularTask | PriorityTask | RecurringTask.

#[global] Instance task_class_eq_dec : EqDecision task_class.
Proof. solve_decision. Defined.

Definition class_name (c : task_class) : string :=
  match c with
  | RegularTask => "RegularTask"
  | PriorityTask => "PriorityTask"
  | RecurringTask => "RecurringTask"
  end.

Definition init_subclass (registry : gmap string task_class) (c : task_class)
  : gmap string task_class :=
  <[class_name c := c]> registry.

Definition registry : gmap string task_class :=
  foldl init_subclass ∅ [RegularTask; PriorityTask; RecurringTask].

Definition STATUS : list value := [VStr "pending"; VStr "in progress"; VStr "done"].

(** A task object: its class, the four attributes set by [Task.__init__],
    and every other instance attribute ([deadline], [priority], ..., and
    whatever [from_dict] injected with [setattr]) in [attrs].  [created] is
    always a datetime; the other attributes hold whatever value they were
    given.  (Injected attributes whose names are special to Python, such
    as the name of a method, are not modelled.) *)
Record Task : Type := mkTask {
  cls : task_class;
  title : value;
  description : value;
  status : value;
  created : datetime;
  attrs : gmap string value
}.

Definition isinstance (t : Task) (c : task_class) : bool := bool_decide (cls t = c).

Definition setattr (t : Task) (k : string) (v : value) : Task :=
  mkTask (cls t) (title t) (description t) (status t) (created t) (<[k := v]> (attrs t)).

(** [t.k] *)
Definition getattr (t : Task) (k : string) : result value :=
  match attrs t !! k with
  | Some v => Ok v
  | None => Raise AttributeError
  end.

(** [getattr(t, k, default)] *)
Definition getattr_default (t : Task) (k : string) (default : value) : value :=
  from_option id default (attrs t !! k).

Definition set_status (t : Task) (v : value) : Task :=
  mkTask (cls t) (title t) (description t) v (created t) (attrs t).

Definition set_created (t : Task) (d : datetime) : Task :=
  mkTask (cls t) (title t) (description t) (status t) d (attrs t).

(** ** Constructors *)

Definition Task_init (c : task_class) (title description status : value) : M World Task :=
  t ← now;
  mret (mkTask c title description status t ∅).

Definition RegularTask_init (title description status deadline : value) : M World Task :=
  self ← Task_init RegularTask title description status;
  mret (setattr self "deadline" deadline).

(** [s.upper()], on ASCII letters. *)
Definition upper_ascii (a : ascii) : ascii :=
  let n := nat_of_ascii a in
  if (97 <=? n)%nat && (n <=? 122)%nat then ascii_of_nat (n - 32) else a.

Fixpoint upper (s : string) : string :=
  match s with
  | EmptyString => EmptyString
  | String a s' => String (upper_ascii a) (upper s')
  end.

Definition py_upper (v : value) : result value :=
  match v with
  | VStr s => Ok (VStr (upper s))
  | _ => Raise AttributeError
  end.

Definition PriorityTask_init (title description status priority : value) : M World Task :=
  self ← Task_init PriorityTask title description status;
  p ← lift (py_upper priority);
  mret (setattr self "priority" p).

Definition RecurringTask_init (title description status interval_days start_date : value)
  : M World Task :=
  self ← Task_init RecurringTask title description status;
  let self := setattr self "interval_days" interval_days in
  start ← (if py_truthy start_date then mret start_date
            else t ← now; mret (VStr (strftime_date t)));
  mret (setattr self "start_date" start).

(** [task_class(title=..., description=..., status=...)]: the remaining
    parameters take their defaults. *)
Definition construct (c : task_class) (title description status : value) : M World Task :=
  match c with
  | RegularTask => RegularTask_init title description status VNone
  | PriorityTask => PriorityTask_init title description status (VStr "MEDIUM")
  | RecurringTask => RecurringTask_init title description status (VInt 7) VNone
  end.

(** ** Methods *)

Definition next_status (self : Task) : result Task :=
  i ← list_index STATUS (status self);
  if (i <? length STATUS - 1)%nat
  then match STATUS !! (i + 1)%nat with
       | Some s => Ok (set_status self s)
       | None => Raise TypeError  (* IndexError; unreachable *)
       end
  else Ok self.

(** [__lt__] *)
Definition Task_lt (self other : Task) : result bool :=
  Ok (Datetime.ltb (created self) (created other)).

(** [__eq__] *)
Definition Task_eq (self other : Task) : bool :=
  py_eq (title self) (title other) && py_eq (status self) (status other).

Definition base_kwargs (self : Task) : dict :=
  [("title", title self); ("description", description self); ("status", status self);
   ("created", VStr (strftime_datetime (created self)))].

(** [Task.to_dict], reached through [super().to_dict()] *)
Definition Task_to_dict (self : Task) : dict :=
  [("task_type", VStr (class_name (cls self))); ("kwargs", VDict (base_kwargs self))].

Definition to_dict (self : Task) : result value :=
  match cls self with
  | RegularTask =>
      let data := Task_to_dict self in
      deadline ← getattr self "deadline";
      kwargs ← py_getitem (VDict data) "kwargs";
      kwargs ← py_items kwargs;
      Ok (VDict (dict_set "kwargs" (VDict (dict_set "deadline" deadline kwargs)) data))
  | PriorityTask =>
      let data := Task_to_dict self in
      priority ← getattr self "priority";
      Ok (VDict (dict_update data [("priority", priority)]))
  | RecurringTask =>
      let data := Task_to_dict self in
      interval_days ← getattr self "interval_days";
      start_date ← getattr self "start_date";
      Ok (VDict (dict_update data [("interval_days", interval_days);
                                   ("start_date", start_date)]))
  end.

(** [task_type in Task.registry], then [Task.registry[task_type]]: hashing
    a list or a dictionary raises; a key that is not a string equals none
    of the registered names. *)
Definition registry_find (task_type : value) : result (option task_class) :=
  if hashable task_type
  then Ok (match task_type with VStr s => registry !! s | _ => None end)
  else Raise TypeError.

Definition base_keys : list string := ["title"; "description"; "status"; "created"].

Definition from_dict (data : value) : M World Task :=
  task_type ← lift (py_getitem data "task_type");
  found ← lift (registry_find task_type);
  match found with
  | None => raise (ValueError (UnknownTaskType task_type))
  | Some task_class =>
      kwargs ← lift (py_get data "kwargs" (VDict []));
      title ← lift (py_get kwargs "title" (VStr ""));
      description ← lift (py_get kwargs "description" (VStr ""));
      status ← lift (py_get kwargs "status" (VStr "pending"));
      obj ← construct task_class title description status;
      items ← lift (py_items kwargs);
      let obj := foldl (λ obj kv, if existsb (String.eqb kv.1) base_keys then obj
                                  else setattr obj kv.1 kv.2) obj items in
      has_created ← lift (py_contains "created" data);
      if (has_created : bool)
      then c ← lift (py_getitem data "created");
           d ← lift (strptime_datetime c);
           mret (set_created obj d)
      else mret obj
  end.

(* ===================================================================== *)
(** * class Project                                                       *)
(* ===================================================================== *)

Record Project : Type := mkProject {
  name : value;
  tasks : list Task;
  current_date : datetime
}.

(** Methods run on the receiver and the world. *)
Abbreviation Method := (M (Project * World)).

Definition get_self : Method Project := λ s, (Ok s.1, s).

Definition io {A} (m : M World A) : Method A :=
  λ s, let '(r, w) := m s.2 in (r, (s.1, w)).

Definition set_name (v : value) : Method () :=
  λ s, (Ok (), (mkProject v (tasks s.1) (current_date s.1), s.2)).

Definition set_tasks (l : list Task) : Method () :=
  λ s, (Ok (), (mkProject (name s.1) l (current_date s.1), s.2)).

Definition set_current_date (d : datetime) : Method () :=
  λ s, (Ok (), (mkProject (name s.1) (tasks s.1) d, s.2)).

Definition Project_init (name : value) : M World Project :=
  t ← now;
  mret (mkProject name [] t).

Definition get_active_tasks (self : Project) : list Task :=
  filter (λ t, negb (py_eq (status t) (VStr "done")) = true) (tasks self).

(** The loop of [get_overdue_tasks]; [overdue] is the list built so far. *)
Fixpoint overdue_loop (current_date : datetime) (ts overdue : list Task)
  : result (list Task) :=
  match ts with
  | [] => Ok overdue
  | t :: ts' =>
      selected ← (if isinstance t RegularTask
                   then deadline ← getattr t "deadline";
                        Ok (py_truthy deadline && negb (py_eq (status t) (VStr "done")))
                   else Ok false);
      if (selected : bool)
      then d ← getattr t "deadline";
           deadline ← strptime_date d;
           if Datetime.ltb deadline current_date
           then overdue_loop current_date ts' (overdue ++ [t])
           else overdue_loop current_date ts' overdue
      else overdue_loop current_date ts' overdue
  end.

Definition get_overdue_tasks (self : Project) : result (list Task) :=
  overdue_loop (current_date self) (tasks self) [].

Definition PRIORITY_ORDER : gmap string Z :=
  {["HIGH" := 3%Z; "MEDIUM" := 2%Z; "LOW" := 1%Z]}.

(** [PriorityTask.PRIORITY_ORDER.get(v, 0)] *)
Definition priority_order_get (v : value) : result Z :=
  if hashable v
  then Ok (match v with VStr s => from_option id 0%Z (PRIORITY_ORDER !! s) | _ => 0%Z end)
  else Raise TypeError.

Definition deadline_key (t : Task) : result value :=
  Ok (getattr_default t "deadline" (VStr "9999-12-31")).

Definition priority_key (t : Task) : result value :=
  rank ← priority_order_get (getattr_default t "priority" (VStr ""));
  Ok (VInt (- rank)).

(** When a comparison raises, Python leaves the list in an unspecified
    order; here the collection is then left as it was. *)
Definition sort_tasks (criterion : string) : Method () :=
  self ← get_self;
  sorted ← lift (if String.eqb criterion "deadline"
                 then list_sort py_lt deadline_key (tasks self)
                 else if String.eqb criterion "priority"
                 then list_sort py_lt priority_key (tasks self)
                 else list_sort Task_lt Ok (tasks self));
  set_tasks sorted;;
  io (print ("Zadania posortowane wedlug: " +:+ criterion)).

(** The document built by [to_json] and [save]; [json.dumps] turns it
    into text. *)
Definition to_json (self : Project) : result value :=
  ts ← result_mapM to_dict (tasks self);
  Ok (VDict [("name", name self);
             ("current_date", VStr (strftime_datetime (current_date self)));
             ("tasks", VList ts)]).

(** [from_json], on the document [json.loads] returns. *)
Definition from_json (data : value) : M World Project :=
  nm ← lift (py_get data "name" (VStr "Unnamed Project"));
  project ← Project_init nm;
  has_date ← lift (py_contains "current_date" data);
  project ← (if (has_date : bool)
             then c ← lift (py_getitem data "current_date");
                  d ← lift (strptime_datetime c);
                  mret (mkProject (name project) (tasks project) d)
             else mret project);
  entries ← lift (l ← py_get data "tasks" (VList []); py_iter l);
  ts ← mapM from_dict entries;
  mret (mkProject (name project) (tasks project ++ ts) (current_date project)).

(** [save]: [open(filename, "w")] empties the file before the document is
    built and written. *)
Definition save (filename : string) : Method () :=
  io (write_file filename OtherText);;
  self ← get_self;
  doc ← lift (to_json self);
  io (write_file filename (JsonText doc));;
  io (print ("Zapisano do " +:+ filename)).

Definition load (filename : string) : Method () :=
  try_except
    (data ← io (read_json filename);
     self ← get_self;
     nm ← lift (py_get data "name" (name self));
     set_name nm;;
     has_date ← lift (py_contains "current_date" data);
     (if (has_date : bool)
      then c ← lift (py_getitem data "current_date");
           d ← lift (strptime_datetime c);
           set_current_date d
      else mret ());;
     entries ← lift (l ← py_get data "tasks" (VList []); py_iter l);
     ts ← io (mapM from_dict entries);
     set_tasks ts;;
     io (print ("Wczytano z " +:+ filename)))
    (λ e, match e with
          | FileNotFoundError => Some (io (print "Nie ma pliku."))
          | _ => None
          end).

(* ===================================================================== *)
(** * class Project: dates, adding and marking                            *)
(* ===================================================================== *)

(** The argument of [set_date]: a text, or a datetime object. *)
Inductive date_arg : Type :=
| DateText (s : string)
| DateObject (d : datetime).

Definition set_date (new_date : date_arg) : Method () :=
  match new_date with
  | DateText s => d ← lift (strptime_date (VStr s)); set_current_date d
  | DateObject d => set_current_date d
  end;;
  self ← get_self;
  io (print ("Data projektu ustawiona na: " +:+ strftime_date (current_date self))).


(** The loop of [mark_task_done] and [mark_task_in_progress] on a
    collection of distinct objects: the first task whose title equals
    [wanted] gets the status [st]; [None] when no title matches. *)
Fixpoint mark_first (wanted st : value) (ts : list Task) : option (list Task) :=
  match ts with
  | [] => None
  | t :: ts' =>
      if py_eq (title t) wanted then Some (set_status t st :: ts')
      else (t ::.) <$> mark_first wanted st ts'
  end.

(** Methods that print a value in an f-string.  [fmt] is Python's [str()];
    the methods are modelled for whatever text it gives. *)
Section Console.
Context (fmt : value → string).


Definition mark_task (st : string) (wanted : value) : Method () :=
  self ← get_self;
  match mark_first wanted (VStr st) (tasks self) with
  | Some ts =>
      set_tasks ts;;
      io (print ("Zadanie '" +:+ fmt wanted +:+ "' oznaczono jako '" +:+ st +:+ "'."))
  | None => io (print "Nie znaleziono zadania.")
  end.

Definition mark_task_done : value → Method () := mark_task "done".

Definition mark_task_in_progress : value → Method () := mark_task "in progress".
End Console.

(** ** Shared task objects

    A task is an object, and the same object can be added to a collection
    more than once.  Here the collection is a list of references into a
    store of objects; assigning to [t.status] changes the object, and with
    it every place of the collection that refers to it. *)
Fixpoint find_object (objs : gmap nat Task) (wanted : value) (refs : list nat)
  : option nat :=
  match refs with
  | [] => None
  | r :: refs' =>
      match objs !! r with
      | Some t => if py_eq (title t) wanted then Some r else find_object objs wanted refs'
      | None => find_object objs wanted refs'
      end
  end.

Definition mark_object (objs : gmap nat Task) (wanted st : value) (refs : list nat)
  : option (gmap nat Task) :=
  r ← find_object objs wanted refs;
  Some (alter (λ t, set_status t st) r objs).

(** The tasks a list of references stands for. *)
Definition contents (objs : gmap nat Task) (refs : list nat) : list Task :=
  omap (λ r, objs !! r) refs.

(* ===================================================================== *)
(** * Vocabulary of the properties                                        *)
(* ===================================================================== *)

(** ** Effects *)

(** Computations that never raise [FileNotFoundError]: [load] handles that
    exception only, so every other exception raised inside its [try] block
    reaches the caller. *)
Definition quiet_result {A} (r : result A) : Prop := r ≠ Raise FileNotFoundError.
Definition quiet {S A} (m : M S A) : Prop := ∀ s, quiet_result (m s).1.

Definition print_line (w : World) (line : string) : World :=
  mkWorld (clock w) (ticks w) (stdout w ++ [line]) (files w).

(** The world after [n] more readings of the clock. *)
Definition advance (n : nat) (w : World) : World :=
  mkWorld (clock w) (n + ticks w) (stdout w) (files w).

Definition with_tasks (self : Project) (l : list Task) : Project :=
  mkProject (name self) l (current_date self).

(** ** Deserialising *)

(** An entry whose [task_type] is a name that no class was registered
    under. *)
Definition unregistered (entry : value) : Prop :=
  ∃ id, py_getitem entry "task_type" = Ok (VStr id) ∧ registry !! id = None.

(** What [from_dict] makes of the dictionary [to_dict] produced for [T],
    when called in world [w]: class, title, description and status are
    those of [T]; [created] is the time of the call; of the other
    attributes only the deadline of a [RegularTask] comes from [T], the
    rest are the defaults of the constructors. *)
Definition reloaded (T : Task) (w : World) : Task :=
  mkTask (cls T) (title T) (description T) (status T) (clock w (ticks w))
    match cls T with
    | RegularTask => {["deadline" := default VNone (attrs T !! "deadline")]}
    | PriorityTask => {["priority" := VStr "MEDIUM"]}
    | RecurringTask =>
        {["interval_days" := VInt 7;
          "start_date" := VStr (strftime_date (clock w (S (ticks w))))]}
    end.

(** How often [from_dict] reads the clock for [T]: the constructor of a
    recurring task reads it a second time for the start date. *)
Definition clock_reads (T : Task) : nat :=
  match cls T with RecurringTask => 2 | _ => 1 end.

(** The same for a list of tasks deserialised one after the other. *)
Fixpoint reload_all (ts : list Task) (w : World) : list Task * World :=
  match ts with
  | [] => ([], w)
  | T :: ts' =>
      let '(l, w') := reload_all ts' (advance (clock_reads T) w) in
      (reloaded T w :: l, w')
  end.

(** ** Overdue tasks *)

(** The description of an overdue task: an instance of the class with a
    deadline, whose deadline is non-empty, whose status is not done, and
    whose deadline date lies strictly before [today]. *)
Definition overdue_spec (today : datetime) (t : Task) : bool :=
  bool_decide (cls t = RegularTask) &&
  match attrs t !! "deadline" with
  | Some d =>
      py_truthy d && negb (py_eq (status t) (VStr "done")) &&
      match strptime_date d with
      | Ok date => Datetime.ltb date today
      | Raise _ => false
      end
  | None => false
  end.

(** The data the computation relies on: a [RegularTask] has its [deadline]
    attribute (the constructor sets it), and the deadline of a task that is
    inspected (non-empty, task not done) is a text that parses as a date. *)
Definition deadline_readable (t : Task) : bool :=
  match cls t with
  | RegularTask =>
      match attrs t !! "deadline" with
      | Some d =>
          negb (py_truthy d && negb (py_eq (status t) (VStr "done")))
          || is_ok (strptime_date d)
      | None => false
      end
  | _ => true
  end.

(** ** Sorting *)

(** The stable sort of a list by a key [pkey] into a type with the strict
    order [ltb]: [x] goes behind the elements with a strictly smaller
    key. *)
Section StableSort.
Context {K' A : Type} (ltb : K' → K' → bool) (pkey : A → K').

Fixpoint insert_by (x : A) (l : list A) : list A :=
  match l with
  | [] => [x]
  | y :: l' => if ltb (pkey y) (pkey x) then y :: insert_by x l' else x :: y :: l'
  end.

Definition stable_sort (l : list A) : list A := foldr insert_by [] l.

(** [a] may stand before [b]. *)
Definition key_le (a b : A) : Prop := ltb (pkey b) (pkey a) = false.

(** The elements with key [k], in their order. *)
Definition with_key `{EqDecision K'} (k : K') (l : list A) : list A :=
  List.filter (λ x, bool_decide (pkey x = k)) l.
End StableSort.

(** An element paired with the key the program computes for it. *)
Definition tag {K K' A : Type} (inj : K' → K) (pkey : A → K') (x : A) : K * A :=
  (inj (pkey x), x).

(** The rank the specification gives a task: HIGH 3, MEDIUM 2, LOW 1, and 0
    for a task without a priority or with any other priority. *)
Definition priority_rank (t : Task) : Z :=
  match attrs t !! "priority" with
  | Some (VStr s) =>
      if String.eqb s "HIGH" then 3
      else if String.eqb s "MEDIUM" then 2
      else if String.eqb s "LOW" then 1
      else 0
  | _ => 0
  end.

(** The priority, where there is one, can be looked up in a dictionary. *)
Definition priority_hashable (t : Task) : bool :=
  match attrs t !! "priority" with
  | Some v => hashable v
  | None => true
  end.

(** Keys are negated ranks, so a smaller key is a larger rank. *)
Definition rank_key (r : Z) : value := VInt (- r).
Definition rank_before (a b : Z) : bool := (b <? a)%Z.

(** The text the specification sorts a task by: its deadline, or
    ["9999-12-31"] when it has no [deadline] attribute. *)
Definition deadline_text (t : Task) : string :=
  match attrs t !! "deadline" with
  | Some (VStr s) => s
  | _ => "9999-12-31"
  end.

(** The deadline, where there is one, is a text. *)
Definition deadline_is_text (t : Task) : bool :=
  match attrs t !! "deadline" with
  | Some (VStr _) | None => true
  | Some _ => false
  end.

(** C7 as the specification words it: after the sort, a task without a
    [deadline] attribute stands behind every task whose deadline is a date
    text, whatever the order before. *)
Definition is_date_text (d : string) : bool := is_ok (strptime_date (VStr d)).

Definition missing_deadline_last (l : list Task) : Prop :=
  ∀ i j a b d, l !! i = Some a → l !! j = Some b →
               attrs a !! "deadline" = None →
               attrs b !! "deadline" = Some (VStr d) → is_date_text d = true →
               j < i.

Definition sort_tasks_deadline_stated (self : Project) (w : World) : Prop :=
  ∃ sorted w',
    sort_tasks "deadline" (self, w) = (Ok (), (with_tasks self sorted, w')) ∧
    missing_deadline_last sorted.

(** ** What a computation leaves alone *)

(** [m] never changes the part [f] of the state, whether it returns or
    raises. *)
Definition preserves {S A X : Type} (f : S → X) (m : M S A) : Prop :=
  ∀ s r s', m s = (r, s') → f s' = f s.

(** The parts of the state of a method. *)
Definition the_project (s : Project * World) : Project := s.1.
Definition the_files (s : Project * World) : gmap string file := files s.2.
Definition the_console (s : Project * World) : list string := stdout s.2.

(** ** Dates *)

(** The same day at midnight. *)
Definition midnight (t : datetime) : datetime :=
  mkDatetime (year t) (month t) (day t) 0 0 0 0.

(** [now] is a moment of day [d0], after midnight. *)
Definition later_that_day (d0 now : datetime) : Prop :=
  year now = year d0 ∧ month now = month d0 ∧ day now = day d0 ∧
  (0 ≤ hour now)%Z ∧ (0 ≤ minute now)%Z ∧ (0 ≤ second now)%Z ∧ (0 ≤ microsecond now)%Z ∧
  (0 < hour now + minute now + second now + microsecond now)%Z.

(** A task that is not done. *)
Definition active (t : Task) : bool := negb (py_eq (status t) (VStr "done")).


(** The project on another day. *)
Definition on_date (self : Project) (d : datetime) : Project :=
  mkProject (name self) (tasks self) d.

(** ** Round trips *)

(** What serialising and deserialising keeps of a task. *)
Definition same_core (T T' : Task) : Prop :=
  cls T' = cls T ∧ title T' = title T ∧ description T' = description T ∧
  status T' = status T.

(** ** Files *)

(** The world after [filename] was written with [f]. *)
Definition with_file (w : World) (filename : string) (f : file) : World :=
  mkWorld (clock w) (ticks w) (stdout w) (<[filename := f]> (files w)).

(** ** Marking *)

(** The test of the marking loops: [t.title == wanted]. *)
Definition titled (wanted : value) (t : Task) : bool := py_eq (title t) wanted.

(** The lines the marking methods print. *)
Definition marked_line (fmt : value → string) (wanted : value) (st : string) : string :=
  "Zadanie '" +:+ fmt wanted +:+ "' oznaczono jako '" +:+ st +:+ "'.".

(** ** Deserialising, in closed form *)

(** The attributes the constructor of class [c] sets when [from_dict]
    calls it in world [w], and the task it returns. *)
Definition default_attrs (c : task_class) (w : World) : gmap string value :=
  match c with
  | RegularTask => {["deadline" := VNone]}
  | PriorityTask => {["priority" := VStr "MEDIUM"]}
  | RecurringTask =>
      {["interval_days" := VInt 7;
        "start_date" := VStr (strftime_date (clock w (S (ticks w))))]}
  end.

Definition fresh_task (c : task_class) (ti de st : value) (w : World) : Task :=
  mkTask c ti de st (clock w (ticks w)) (default_attrs c w).




(** A task has the attributes its class serialises. *)
Definition serialisable (t : Task) : bool :=
  match cls t with
  | RegularTask => bool_decide (is_Some (attrs t !! "deadline"))
  | PriorityTask => bool_decide (is_Some (attrs t !! "priority"))
  | RecurringTask =>
      bool_decide (is_Some (attrs t !! "interval_days")) &&
      bool_decide (is_Some (attrs t !! "start_date"))
  end.

(* ===================================================================== *)
(** * Sample data                                                         *)
(* ===================================================================== *)

(** Clocks and worlds. *)
Definition t0 : datetime := mkDatetime 2024 6 1 12 0 0 250000.
Definition sample_clock (n : nat) : datetime := mkDatetime 2024 6 15 8 30 (Z.of_nat n) 17.
Definition sample_world : World := mkWorld sample_clock 0 [] ∅.

(** A task is created on 1 June 2024 at noon; everything after that
    happens two weeks later. *)
Definition june_clock (n : nat) : datetime :=
  match n with
  | 0 => mkDatetime 2024 6 1 12 0 0 250000
  | _ => mkDatetime 2024 6 15 8 30 (Z.of_nat n) 17
  end.

Definition june_world : World := mkWorld june_clock 0 [] ∅.

(** The example of the specification for overdue tasks: on 2024-06-15 a
    pending task due on 2024-06-01, the same task done, and a priority task
    that carries a [deadline] attribute. *)
Definition pending_task : Task :=
  mkTask RegularTask (VStr "report") (VStr "") (VStr "pending") t0
         {["deadline" := VStr "2024-06-01"]}.

Definition done_task : Task := set_status pending_task (VStr "done").

Definition priority_with_deadline : Task :=
  mkTask PriorityTask (VStr "call") (VStr "") (VStr "pending") t0
         {["priority" := VStr "HIGH"; "deadline" := VStr "2024-01-01"]}.

Definition overdue_project : Project :=
  mkProject (VStr "demo") [done_task; priority_with_deadline; pending_task]
            (mkDatetime 2024 6 15 0 0 0 0).

(** The example of the specification: priorities MEDIUM, HIGH, MEDIUM. *)
Definition priority_task (title priority : string) : Task :=
  mkTask PriorityTask (VStr title) (VStr "") (VStr "pending") t0
         {["priority" := VStr priority]}.

Definition priority_project : Project :=
  mkProject (VStr "demo")
            [priority_task "first" "MEDIUM"; priority_task "second" "HIGH";
             priority_task "third" "MEDIUM"]
            t0.

Definition regular_task (title : string) (deadline : value) : Task :=
  mkTask RegularTask (VStr title) (VStr "") (VStr "pending") t0
         {["deadline" := deadline]}.

Definition deadline_project : Project :=
  mkProject (VStr "demo")
            [priority_task "no deadline" "LOW"; regular_task "late" (VStr "2024-09-30");
             regular_task "early" (VStr "2024-03-01")]
            t0.

(** The last day a [datetime] can hold is a date like any other, and its
    text is the very text that stands in for a missing deadline: the two
    tasks tie and keep the order they were added in. *)
Definition last_day_project : Project :=
  mkProject (VStr "demo")
            [priority_task "no deadline" "LOW"; regular_task "last day" (VStr "9999-12-31")]
            t0.

(** A deadline left at the constructor's default. *)
Definition none_deadline_project : Project :=
  mkProject (VStr "demo")
            [regular_task "open end" VNone; regular_task "early" (VStr "2024-03-01")]
            t0.

(** [PriorityTask("pay rent", priority="high")], its dictionary, and what
    [from_dict] returns for the dictionary. *)
Definition rent_task : Task :=
  mkTask PriorityTask (VStr "pay rent") (VStr "") (VStr "pending")
         (mkDatetime 2024 6 1 12 0 0 250000) {["priority" := VStr "HIGH"]}.

Definition rent_dict : value :=
  VDict [("task_type", VStr "PriorityTask");
         ("kwargs", VDict [("title", VStr "pay rent"); ("description", VStr "");
                           ("status", VStr "pending");
                           ("created", VStr "2024-06-01 12:00:00")]);
         ("priority", VStr "HIGH")].

Definition rent_task_reloaded : Task :=
  mkTask PriorityTask (VStr "pay rent") (VStr "") (VStr "pending")
         (mkDatetime 2024 6 15 8 30 1 17) {["priority" := VStr "MEDIUM"]}.

Definition gym_task : Task :=
  mkTask RecurringTask (VStr "gym") (VStr "") (VStr "pending")
         (mkDatetime 2024 6 1 12 0 0 250000)
         {["interval_days" := VInt 3; "start_date" := VStr "2024-06-03"]}.

Definition rent_project : Project :=
  mkProject (VStr "home") [rent_task] (mkDatetime 2024 6 10 0 0 0 0).

Definition rent_document : value :=
  VDict [("name", VStr "home"); ("current_date", VStr "2024-06-10 00:00:00");
         ("tasks", VList [rent_dict])].

(** The example of the specification for unknown types, and a stored
    document that contains it. *)
Definition bogus_entry : value := VDict [("task_type", VStr "Bogus"); ("kwargs", VDict [])].

Definition bogus_document : dict :=
  [("name", VStr "imported"); ("current_date", VStr "2024-07-01 10:00:00");
   ("tasks", VList [rent_dict; bogus_entry])].

Definition disk_world : World :=
  mkWorld june_clock 1 [] {["tasks.json" := JsonText (VDict bogus_document)]}.

(** A mapping as a newer version of the program might write it: an
    attribute the class does not know, and a creation time beside
    ["kwargs"]. *)
Definition extended_kwargs : dict :=
  [("title", VStr "report"); ("status", VStr "done"); ("created", VStr "2020-01-01 00:00:00");
   ("deadline", VStr "2024-06-01"); ("colour", VStr "red")].

Definition extended_entry : dict :=
  [("task_type", VStr "RegularTask"); ("kwargs", VDict extended_kwargs);
   ("created", VStr "2024-05-05 10:00:00")].

(** A task due on 15 June 2024, and that day at midnight and at noon. *)
Definition due_task : Task := regular_task "due today" (VStr "2024-06-15").
Definition june_15 : datetime := mkDatetime 2024 6 15 0 0 0 0.
Definition june_15_noon : datetime := mkDatetime 2024 6 15 12 0 0 0.

Definition due_project : Project := mkProject (VStr "demo") [due_task] t0.



(** A task whose priority is a list. *)
Definition listed_priority_task : Task :=
  mkTask PriorityTask (VStr "plan") (VStr "") (VStr "pending") t0
         {["priority" := VList [VStr "HIGH"; VStr "LOW"]]}.

Definition listed_priority_project : Project :=
  mkProject (VStr "demo") [gym_task; listed_priority_task; rent_task] t0.

(** A task as a file can give it: the status is none of [STATUS]. *)
Definition paused_task : Task := set_status pending_task (VStr "paused").

(** A task without the attribute its class serialises, as [del t.deadline]
    leaves it, and a project holding it. *)
Definition stripped_task : Task :=
  mkTask RegularTask (VStr "draft") (VStr "") (VStr "pending") t0 ∅.

Definition stripped_project : Project :=
  mkProject (VStr "demo") [rent_task; stripped_task] t0.

(** A disk with a document of [rent_project]. *)
Definition rent_disk : World :=
  mkWorld sample_clock 0 [] {["tasks.json" := JsonText rent_document]}.



(** [str()] on the titles of the samples, which are texts. *)
Definition str_of_text (v : value) : string :=
  match v with VStr s => s | _ => "" end.

(** Two tasks with the same title, the first one done. *)
Definition twice_project : Project :=
  mkProject (VStr "demo") [gym_task; done_task; pending_task] t0.

(* ===================================================================== *)
(** * Reasoning about effects                                             *)
(* ===================================================================== *)

Section Effects.
Context {S : Type}.

Lemma bind_ok {A B} (m : M S A) (f : A → M S B) s a s' :
  m s = (Ok a, s') → (m ≫= f) s = f a s'.
Proof. intros H. unfold mbind, M_mbind, M_bind. by rewrite H. Qed.

Lemma bind_raise {A B} (m : M S A) (f : A → M S B) s e s' :
  m s = (Raise e, s') → (m ≫= f) s = (Raise e, s').
Proof. intros H. unfold mbind, M_mbind, M_bind. by rewrite H. Qed.

Lemma mapM_app {A B} (f : A → M S B) (l1 l2 : list A) s ys s' :
  mapM f l1 s = (Ok ys, s') →
  mapM f (l1 ++ l2) s = (zs ← mapM f l2; mret (ys ++ zs)) s'.
Proof.
  revert s ys. induction l1 as [|x l1 IH]; intros s ys H; simpl in *.
  - unfold mret, M_mret, M_ret in H. simplify_eq.
    unfold mbind, M_mbind, M_bind, mret, M_mret, M_ret.
    by destruct (mapM f l2 s') as [[]].
  - unfold mbind, M_mbind, M_bind in *.
    destruct (f x s) as [[y|e] s1]; [|done].
    destruct (mapM f l1 s1) as [[ys'|e] s2] eqn:E; [|done].
    unfold mret, M_mret, M_ret in H. simplify_eq.
    rewrite (IH _ _ E). unfold mret, M_mret, M_ret.
    by destruct (mapM f l2 s') as [[]].
Qed.
End Effects.

(** ** Computations that never raise [FileNotFoundError] *)

Create HintDb quiet discriminated.

Section Quiet.
Context {S : Type}.

Lemma quiet_result_ok {A} (a : A) : quiet_result (Ok a).
Proof. done. Qed.

Lemma quiet_result_raise {A} (e : exn) : e ≠ FileNotFoundError → quiet_result (@Raise A e).
Proof. unfold quiet_result. congruence. Qed.

Lemma quiet_result_bind {A B} (r : result A) (f : A → result B) :
  quiet_result r → (∀ a, quiet_result (f a)) → quiet_result (r ≫= f).
Proof. destruct r; unfold quiet_result; simpl; [auto | congruence]. Qed.

Lemma quiet_ret {A} (a : A) : quiet (mret a : M S A).
Proof. done. Qed.

Lemma quiet_raise {A} (e : exn) : e ≠ FileNotFoundError → quiet (raise e : M S A).
Proof. intros H s. simpl. congruence. Qed.

Lemma quiet_lift {A} (r : result A) : quiet_result r → quiet (lift r : M S A).
Proof. intros H s. exact H. Qed.

Lemma quiet_bind {A B} (m : M S A) (f : A → M S B) :
  quiet m → (∀ a, quiet (f a)) → quiet (m ≫= f).
Proof.
  intros Hm Hf s. specialize (Hm s).
  unfold mbind, M_mbind, M_bind. destruct (m s) as [[a|e] s']; [apply Hf|].
  unfold quiet_result in *. simpl in *. congruence.
Qed.

Lemma quiet_mapM {A B} (f : A → M S B) (l : list A) :
  (∀ a, quiet (f a)) → quiet (mapM f l).
Proof.
  intros Hf. induction l; simpl; [apply quiet_ret|].
  apply quiet_bind; [done|]. intros. apply quiet_bind; [done|]. intros. apply quiet_ret.
Qed.
End Quiet.

#[global] Hint Resolve quiet_result_ok quiet_ret quiet_lift quiet_mapM : quiet.
#[global] Hint Extern 1 (quiet_result (Raise _)) =>
  apply quiet_result_raise; discriminate : quiet.
#[global] Hint Extern 1 (quiet (raise _)) => apply quiet_raise; discriminate : quiet.
#[global] Hint Extern 2 (quiet (_ ≫= _)) => apply quiet_bind; [|intros] : quiet.
#[global] Hint Extern 2 (quiet_result (_ ≫= _)) => apply quiet_result_bind; [|intros] : quiet.
#[global] Hint Extern 3 (quiet (if ?b then _ else _)) => destruct b : quiet.
#[global] Hint Extern 3 (quiet_result (if ?b then _ else _)) => destruct b : quiet.
#[global] Hint Extern 3 (quiet (match ?x with _ => _ end)) => destruct x : quiet.
#[global] Hint Extern 3 (quiet_result (match ?x with _ => _ end)) => destruct x : quiet.

Ltac quiet_unfold f := intros; unfold f; auto 30 with quiet.

Lemma quiet_now : quiet now.
Proof. done. Qed.

Lemma quiet_py_getitem obj k : quiet_result (py_getitem obj k).
Proof. quiet_unfold py_getitem. Qed.

Lemma quiet_py_get obj k v : quiet_result (py_get obj k v).
Proof. quiet_unfold py_get. Qed.

Lemma quiet_py_items obj : quiet_result (py_items obj).
Proof. quiet_unfold py_items. Qed.

Lemma quiet_py_contains k obj : quiet_result (py_contains k obj).
Proof. quiet_unfold py_contains. Qed.

Lemma quiet_py_iter obj : quiet_result (py_iter obj).
Proof. quiet_unfold py_iter. Qed.

Lemma quiet_py_upper v : quiet_result (py_upper v).
Proof. quiet_unfold py_upper. Qed.

Lemma quiet_registry_find v : quiet_result (registry_find v).
Proof. quiet_unfold registry_find. Qed.

Lemma quiet_strptime_datetime v : quiet_result (strptime_datetime v).
Proof. quiet_unfold strptime_datetime. Qed.

#[global] Hint Resolve quiet_now quiet_py_getitem quiet_py_get quiet_py_items
  quiet_py_contains quiet_py_iter quiet_py_upper quiet_registry_find
  quiet_strptime_datetime : quiet.

Lemma quiet_construct c ti de st : quiet (construct c ti de st).
Proof.
  destruct c; unfold construct, RegularTask_init, PriorityTask_init,
    RecurringTask_init, Task_init; auto 30 with quiet.
Qed.
#[global] Hint Resolve quiet_construct : quiet.

Lemma quiet_from_dict data : quiet (from_dict data).
Proof. unfold from_dict. auto 30 with quiet. Qed.
#[global] Hint Resolve quiet_from_dict : quiet.

(* ===================================================================== *)
(** * Formatting and parsing dates                                        *)
(* ===================================================================== *)

Section DatetimeFacts.
Import Datetime.
Local Open Scope Z_scope.

Ltac dlia := Z.div_mod_to_equations; lia.
Local Arguments digit : simpl never.
Local Arguments digit_val : simpl never.
Local Arguments Z.mul : simpl never.
Local Arguments Z.add : simpl never.
Local Arguments Z.div : simpl never.
Local Arguments Z.modulo : simpl never.

Lemma digit_cases (n : Z) :
  0 ≤ n ≤ 9 →
  n = 0 ∨ n = 1 ∨ n = 2 ∨ n = 3 ∨ n = 4 ∨ n = 5 ∨ n = 6 ∨ n = 7 ∨ n = 8 ∨ n = 9.
Proof. lia. Qed.

Ltac each_digit n H :=
  destruct (digit_cases n H) as [->|[->|[->|[->|[->|[->|[->|[->|[->| ->]]]]]]]]].

Lemma digit_val_digit (n : Z) : 0 ≤ n ≤ 9 → digit_val (digit n) = Some n.
Proof. intros H. each_digit n H; reflexivity. Qed.

Lemma digit_not_space (n : Z) (s : string) :
  0 ≤ n ≤ 9 →
  parse_day (String (digit n) s) =
    parse_field (λ x y, (x =? 3) && (y <=? 1) || (x =? 1) || (x =? 2)
                        || (x =? 0) && (1 <=? y))
                (λ x, 1 <=? x) (String (digit n) s).
Proof. intros H. each_digit n H; reflexivity. Qed.

Lemma pad2_digits (n : Z) : 0 ≤ n ≤ 99 → 0 ≤ n / 10 ≤ 9 ∧ 0 ≤ n mod 10 ≤ 9.
Proof. dlia. Qed.

(** A number printed with two digits is read back when the two-digit
    alternative accepts it. *)
Lemma parse_field_pad2 two one (n : Z) (rest : string) :
  0 ≤ n ≤ 99 → two (n / 10) (n mod 10) = true →
  parse_field two one (pad2 n rest) = Some (n, rest).
Proof.
  intros Hn Htwo. destruct (pad2_digits n Hn) as [Hq Hr].
  unfold parse_field, pad2.
  rewrite (digit_val_digit _ Hq). cbn [mbind option_bind].
  rewrite (digit_val_digit _ Hr), Htwo.
  do 2 f_equal. dlia.
Qed.

Lemma parse_year_pad4 (y : Z) (rest : string) :
  0 ≤ y ≤ 9999 → parse_year (pad4 y rest) = Some (y, rest).
Proof.
  intros Hy. unfold parse_year, pad4, pad2.
  rewrite !digit_val_digit by dlia. cbn [mbind option_bind]. do 2 f_equal. dlia.
Qed.

Lemma parse_month_pad2 (m : Z) (rest : string) :
  1 ≤ m ≤ 12 → parse_month (pad2 m rest) = Some (m, rest).
Proof.
  intros Hm. apply parse_field_pad2; [lia|]. cbv beta. dlia.
Qed.

Lemma parse_day_pad2 (d : Z) (rest : string) :
  1 ≤ d ≤ 31 → parse_day (pad2 d rest) = Some (d, rest).
Proof.
  intros Hd. unfold pad2 at 1. rewrite digit_not_space by dlia.
  apply (parse_field_pad2 _ _ d rest); [lia|]. cbv beta. dlia.
Qed.

Lemma parse_hour_pad2 (h : Z) (rest : string) :
  0 ≤ h ≤ 23 → parse_hour (pad2 h rest) = Some (h, rest).
Proof.
  intros Hh. apply parse_field_pad2; [lia|]. cbv beta. dlia.
Qed.

Lemma parse_minute_pad2 (m : Z) (rest : string) :
  0 ≤ m ≤ 59 → parse_minute (pad2 m rest) = Some (m, rest).
Proof. intros Hm. apply parse_field_pad2; [lia|]. cbv beta. dlia. Qed.

Lemma parse_second_pad2 (s : Z) (rest : string) :
  0 ≤ s ≤ 59 → parse_second (pad2 s rest) = Some (s, rest).
Proof.
  intros Hs. apply parse_field_pad2; [lia|]. cbv beta. dlia.
Qed.

Lemma valid_date_range (y m d : Z) :
  valid_date y m d = true → 1 ≤ y ≤ 9999 ∧ 1 ≤ m ≤ 12 ∧ 1 ≤ d ≤ 31.
Proof.
  unfold valid_date, days_in_month. rewrite !andb_true_iff.
  repeat case_match; lia.
Qed.

Lemma valid_time_range (h mi s us : Z) :
  valid_time h mi s us = true → 0 ≤ h ≤ 23 ∧ 0 ≤ mi ≤ 59 ∧ 0 ≤ s ≤ 59.
Proof. unfold valid_time. rewrite !andb_true_iff. lia. Qed.

Lemma parse_date_format (t : datetime) (rest : string) :
  valid_date (year t) (month t) (day t) = true →
  parse_date (format_date t rest) = Some (year t, month t, day t, rest).
Proof.
  intros Hv. apply valid_date_range in Hv as (Hy & Hm & Hd).
  unfold parse_date, format_date.
  rewrite parse_year_pad4 by lia. cbn [mbind option_bind expect Ascii.eqb Bool.eqb].
  rewrite parse_month_pad2 by lia. cbn [mbind option_bind expect Ascii.eqb Bool.eqb].
  by rewrite parse_day_pad2 by lia.
Qed.

(** Reading back a printed date gives the date at midnight. *)
Lemma strptime_strftime_date (t : datetime) :
  1000 ≤ year t →
  valid_date (year t) (month t) (day t) = true →
  strptime_date (VStr (strftime_date t)) =
    Ok (mkDatetime (year t) (month t) (day t) 0 0 0 0).
Proof.
  intros _ Hv. unfold strptime_date, strftime_date.
  by rewrite parse_date_format, Hv.
Qed.

(** Reading back a printed timestamp gives the timestamp to the second. *)
Lemma strptime_strftime_datetime (t : datetime) :
  1000 ≤ year t → valid t = true →
  strptime_datetime (VStr (strftime_datetime t)) = Ok (to_seconds t).
Proof.
  unfold valid. rewrite andb_true_iff. intros _ [Hd Ht].
  pose proof (valid_time_range _ _ _ _ Ht) as (Hh & Hm & Hs).
  unfold strptime_datetime, strftime_datetime.
  rewrite parse_date_format by done.
  cbn [mbind option_bind expect_spaces is_space nat_of_ascii].
  change (is_space " ") with true. cbv iota.
  unfold pad2 at 1.

  assert (∀ n s, 0 ≤ n ≤ 9 → skip_spaces (String (digit n) s) = String (digit n) s) as Hskip.
  { intros n s H. each_digit n H; reflexivity. }
  rewrite Hskip by dlia. cbn [mbind option_bind].
  change (String (digit (hour t / 10)) (String (digit (hour t mod 10)) ?r))
    with (pad2 (hour t) r).
  unfold parse_time.
  rewrite parse_hour_pad2 by lia. cbn [mbind option_bind expect Ascii.eqb Bool.eqb].
  rewrite parse_minute_pad2 by lia. cbn [mbind option_bind expect Ascii.eqb Bool.eqb].
  rewrite parse_second_pad2 by lia. cbn [mbind option_bind].
  rewrite Hd. cbn [andb].
  assert (valid_time (hour t) (minute t) (second t) 0 = true) as ->; [|done].
  unfold valid_time in *. rewrite !andb_true_iff in *. lia.
Qed.

(** Every printed date but the last one is a text below
    ["9999-12-31"]; the last day of year 9999 is that text itself. *)
Lemma strftime_date_before_last (t : datetime) :
  valid_date (year t) (month t) (day t) = true →
  (year t, month t, day t) ≠ (9999, 12, 31) →
  String.ltb (strftime_date t) "9999-12-31" = true.
Proof.
  intros Hv Hne. apply valid_date_range in Hv as (Hy & Hm & Hd).
  unfold strftime_date, format_date, pad4, pad2.
  remember (year t / 1000) as y3 eqn:E3. assert (0 ≤ y3 ≤ 9) as H3 by dlia.
  each_digit y3 H3; try reflexivity.
  remember (year t / 100 mod 10) as y2 eqn:E2. assert (0 ≤ y2 ≤ 9) as H2 by dlia.
  each_digit y2 H2; try reflexivity.
  remember (year t mod 100 / 10) as y1 eqn:E1. assert (0 ≤ y1 ≤ 9) as H1 by dlia.
  each_digit y1 H1; try reflexivity.
  remember (year t mod 100 mod 10) as y0 eqn:E0. assert (0 ≤ y0 ≤ 9) as H0 by dlia.
  each_digit y0 H0; try reflexivity.
  remember (month t / 10) as m1 eqn:F1. assert (0 ≤ m1 ≤ 9) as G1 by dlia.
  each_digit m1 G1; try reflexivity; try (exfalso; dlia).
  remember (month t mod 10) as m0 eqn:F0. assert (0 ≤ m0 ≤ 9) as G0 by dlia.
  each_digit m0 G0; try reflexivity; try (exfalso; dlia).
  remember (day t / 10) as d1 eqn:D1. assert (0 ≤ d1 ≤ 9) as K1 by dlia.
  each_digit d1 K1; try reflexivity; try (exfalso; dlia).
  remember (day t mod 10) as d0 eqn:D0. assert (0 ≤ d0 ≤ 9) as K0 by dlia.
  each_digit d0 K0; try reflexivity; try (exfalso; dlia).
  exfalso. apply Hne. repeat f_equal; dlia.
Qed.

Lemma last_day_is_date_text : is_date_text "9999-12-31" = true.
Proof. reflexivity. Qed.

End DatetimeFacts.

(* ===================================================================== *)
(** * Status transitions                                                  *)
(* ===================================================================== *)

Section NextStatus.

Lemma next_status_pending (t : Task) :
  status t = VStr "pending" → next_status t = Ok (set_status t (VStr "in progress")).
Proof. intros H. unfold next_status. rewrite H. reflexivity. Qed.

Lemma next_status_in_progress (t : Task) :
  status t = VStr "in progress" → next_status t = Ok (set_status t (VStr "done")).
Proof. intros H. unfold next_status. rewrite H. reflexivity. Qed.

Lemma next_status_done (t : Task) :
  status t = VStr "done" → next_status t = Ok t.
Proof. intros H. unfold next_status. rewrite H. reflexivity. Qed.

(** One step forward from any position of [STATUS], none from the last. *)
Lemma next_status_step (t : Task) (i : nat) (s : value) :
  STATUS !! i = Some s → status t = s →
  next_status t = Ok (set_status t (from_option id s (STATUS !! S i))).
Proof.
  intros Hi Hs. destruct t as [c ti de st cr ats]. simpl in Hs. subst st.
  destruct i as [|[|[|i]]]; simplify_eq/=; reflexivity.
Qed.

Lemma list_index_absent (l : list value) (v : value) :
  Forall (λ x, py_eq x v = false) l → list_index l v = Raise (ValueError NotInList).
Proof.
  induction 1 as [|x l Hx _ IH]; [done|].
  cbn [list_index]. by rewrite Hx, IH.
Qed.

(** A status that is not in [STATUS] makes [list.index] raise. *)
Lemma next_status_unknown (t : Task) :
  Forall (λ s, py_eq s (status t) = false) STATUS →
  next_status t = Raise (ValueError NotInList).
Proof. intros H. unfold next_status. by rewrite (list_index_absent _ _ H). Qed.

(** C4. [next_status] moves the status one step along
    pending, in progress, done and leaves a done task as it is: from a
    pending task the first call gives in progress, the second done, and
    the third changes nothing.  Nothing but the status is touched. *)
Theorem next_status_sequence (t : Task) :
  status t = VStr "pending" →
  ∃ t1 t2,
    next_status t = Ok t1 ∧ t1 = set_status t (VStr "in progress") ∧
    next_status t1 = Ok t2 ∧ t2 = set_status t (VStr "done") ∧
    next_status t2 = Ok t2.
Proof.
  intros H. eexists _, _.
  split; [by apply next_status_pending|]. split; [done|].
  split; [by apply next_status_in_progress|]. split; [done|].
  by apply next_status_done.
Qed.

End NextStatus.

Lemma next_status_sequence_witness :
  ∃ t1 t2,
    next_status pending_task = Ok t1 ∧ t1 = set_status pending_task (VStr "in progress") ∧
    next_status t1 = Ok t2 ∧ t2 = set_status pending_task (VStr "done") ∧
    next_status t2 = Ok t2.
Proof. apply (next_status_sequence pending_task). reflexivity. Defined.

(* ===================================================================== *)
(** * Serialising and deserialising                                       *)
(* ===================================================================== *)

Section RoundTrip.

Lemma from_dict_to_dict (T : Task) (w : World) (d : value) :
  to_dict T = Ok d →
  from_dict d w = (Ok (reloaded T w), advance (clock_reads T) w).
Proof.
  unfold to_dict, reloaded, clock_reads, getattr.
  destruct T as [c ti de st cr ats]; simpl.
  destruct c; simpl.
  - destruct (ats !! "deadline") as [dl|]; simpl; [|done].
    intros [= <-]. reflexivity.
  - destruct (ats !! "priority") as [p|]; simpl; [|done].
    intros [= <-]. reflexivity.
  - destruct (ats !! "interval_days") as [i|]; simpl; [|done].
    destruct (ats !! "start_date") as [s|]; simpl; [|done].
    intros [= <-]. reflexivity.
Qed.

Lemma mapM_from_dict_to_dict (ts : list Task) (ds : list value) (w : World) :
  result_mapM to_dict ts = Ok ds →
  mapM from_dict ds w = (Ok (reload_all ts w).1, (reload_all ts w).2).
Proof.
  revert ds w. induction ts as [|T ts IH]; intros ds w; simpl.
  { by intros [= <-]. }
  destruct (to_dict T) as [d|] eqn:Hd; simpl; [|done].
  destruct (result_mapM to_dict ts) as [ds'|] eqn:Hds; simpl; [|done].
  intros [= <-]. simpl.
  erewrite bind_ok by (by apply from_dict_to_dict).
  erewrite bind_ok by (by apply IH).
  by destruct (reload_all ts (advance (clock_reads T) w)).
Qed.

(** What [from_json] makes of the document [to_json] produced for [P]:
    the name and the current date (to the second) are those of [P], the
    tasks are those [from_dict] rebuilds. *)
Lemma from_json_to_json (P : Project) (w : World) (doc : value) :
  to_json P = Ok doc →
  (1000 ≤ year (current_date P))%Z → Datetime.valid (current_date P) = true →
  from_json doc w =
    (Ok (mkProject (name P) (reload_all (tasks P) (advance 1 w)).1
                   (Datetime.to_seconds (current_date P))),
     (reload_all (tasks P) (advance 1 w)).2).
Proof.
  unfold to_json. intros Hdoc Hy Hv.
  destruct (result_mapM to_dict (tasks P)) as [ds|] eqn:Hds; simpl in Hdoc; [|done].
  injection Hdoc as <-.
  unfold from_json.
  do 3 (erewrite bind_ok by reflexivity).
  erewrite bind_ok; cycle 1.
  { lazymatch goal with
    | |- (if ?c then _ else _) _ = _ => change c with true; cbv iota
    end.
    erewrite bind_ok by reflexivity.
    erewrite bind_ok by (unfold lift; by rewrite strptime_strftime_datetime).
    reflexivity. }
  erewrite bind_ok by reflexivity.
  erewrite bind_ok by (by apply mapM_from_dict_to_dict).
  reflexivity.
Qed.

End RoundTrip.

(** ** The round trip on concrete tasks

    A task is created on 1 June 2024 at noon, with priority "high"; it is
    serialised and deserialised two weeks later. *)

(** C1 does not hold of the program. The constructor
    call [PriorityTask("pay rent", priority="high")] gives [rent_task];
    [to_dict] puts its priority beside ["kwargs"] and its creation time
    inside; [from_dict] looks for attributes inside ["kwargs"] and for the
    creation time beside it, and so returns a task with the default
    priority whose creation time is the time of the call. *)
Theorem from_dict_to_dict_rent_task :
  PriorityTask_init (VStr "pay rent") (VStr "") (VStr "pending") (VStr "high") june_world
    = (Ok rent_task, advance 1 june_world) ∧
  to_dict rent_task = Ok rent_dict ∧
  from_dict rent_dict (advance 1 june_world) = (Ok rent_task_reloaded, advance 2 june_world) ∧
  attrs rent_task !! "priority" = Some (VStr "HIGH") ∧
  attrs rent_task_reloaded !! "priority" = Some (VStr "MEDIUM") ∧
  Datetime.to_seconds (created rent_task_reloaded) ≠ Datetime.to_seconds (created rent_task).
Proof. repeat split; done. Qed.

(** A task with a deadline keeps the deadline and loses the creation
    time; a recurring task loses interval, start date and creation time. *)
Example from_dict_to_dict_regular :
  (d ← to_dict pending_task; (from_dict d (advance 1 june_world)).1) =
    Ok (set_created pending_task (mkDatetime 2024 6 15 8 30 1 17)).
Proof. reflexivity. Qed.

Example from_dict_to_dict_recurring :
  (d ← to_dict gym_task; (from_dict d (advance 1 june_world)).1) =
    Ok (mkTask RecurringTask (VStr "gym") (VStr "") (VStr "pending")
               (mkDatetime 2024 6 15 8 30 1 17)
               {["interval_days" := VInt 7; "start_date" := VStr "2024-06-15"]}).
Proof. reflexivity. Qed.

(** C2 does not hold of the program either, for the
    same reason: [from_json] rebuilds the tasks with [from_dict].  The
    name, the current date and the number and order of the tasks come
    back; the priority and the creation time of the task do not. *)
Theorem from_json_to_json_rent_project :
  to_json rent_project = Ok rent_document ∧
  from_json rent_document (advance 1 june_world) =
    (Ok (mkProject (VStr "home")
                   [mkTask PriorityTask (VStr "pay rent") (VStr "") (VStr "pending")
                           (mkDatetime 2024 6 15 8 30 2 17) {["priority" := VStr "MEDIUM"]}]
                   (mkDatetime 2024 6 10 0 0 0 0)),
     advance 3 june_world) ∧
  tasks rent_project =
    [mkTask PriorityTask (VStr "pay rent") (VStr "") (VStr "pending")
            (mkDatetime 2024 6 1 12 0 0 250000) {["priority" := VStr "HIGH"]}].
Proof. repeat split; done. Qed.

(* ===================================================================== *)
(** * Unknown task types                                                  *)
(* ===================================================================== *)

Lemma registry_names (id : string) :
  registry !! id = None ↔ id ∉ ["RegularTask"; "PriorityTask"; "RecurringTask"].
Proof.
  unfold registry, init_subclass. simpl. rewrite !lookup_insert_None, lookup_empty.
  rewrite !not_elem_of_cons, elem_of_nil. intuition congruence.
Qed.

Lemma registry_class (c : task_class) : registry !! class_name c = Some c.
Proof. by destruct c. Qed.

Section UnknownType.

Lemma from_dict_unknown (data : value) (id : string) (w : World) :
  py_getitem data "task_type" = Ok (VStr id) → registry !! id = None →
  from_dict data w = (Raise (ValueError (UnknownTaskType (VStr id))), w).
Proof.
  intros Hty Hreg. unfold from_dict.
  erewrite bind_ok by (unfold lift; by rewrite Hty).
  erewrite bind_ok by (unfold lift, registry_find; simpl; by rewrite Hreg).
  reflexivity.
Qed.



(** Deserialising a list of entries stops at the first exception, so an
    unregistered entry anywhere in the list makes the whole list fail. *)
Lemma mapM_from_dict_unknown (entries : list value) (bad : value) (w : World) :
  bad ∈ entries → unregistered bad →
  ∃ e w', mapM from_dict entries w = (Raise e, w') ∧ e ≠ FileNotFoundError.
Proof.
  intros Hin (id & Hty & Hreg). revert w.
  induction Hin as [bad l|bad x l _ IH]; intros w; simpl.
  - erewrite bind_raise by by apply from_dict_unknown. eauto.
  - unfold mbind, M_mbind, M_bind.
    pose proof (quiet_from_dict x w) as Hq.
    destruct (from_dict x w) as [[t|e] w1].
    + destruct (IH Hty w1) as (e & w' & -> & He). eauto.
    + exists e, w1. split; [done|]. intros ->. by apply Hq.
Qed.

(** When all the entries in front of it deserialise, the exception is the
    unknown-type error, raised in the world they left. *)
Lemma mapM_from_dict_first_unknown (good rest : list value) (bad : value) id ts w w1 :
  mapM from_dict good w = (Ok ts, w1) →
  py_getitem bad "task_type" = Ok (VStr id) → registry !! id = None →
  mapM from_dict (good ++ bad :: rest) w =
    (Raise (ValueError (UnknownTaskType (VStr id))), w1).
Proof.
  intros Hgood Hty Hreg. rewrite (mapM_app _ _ _ _ _ _ Hgood). simpl.
  erewrite bind_raise; [|erewrite bind_raise; [done|by apply from_dict_unknown]].
  done.
Qed.

End UnknownType.

(* ===================================================================== *)
(** * Loading                                                             *)
(* ===================================================================== *)

Section Load.

Ltac step := erewrite bind_ok by reflexivity.

(** [load] on a stored document one of whose task entries has an
    unregistered type: the call raises; by then [name] and [current_date]
    have been assigned from the document, [tasks] has not. *)
Lemma load_unregistered_entry filename (self : Project) (w : World) d entries bad :
  files w !! filename = Some (JsonText (VDict d)) →
  dict_lookup "tasks" d = Some (VList entries) →
  bad ∈ entries → unregistered bad →
  ∃ e self' w', load filename (self, w) = (Raise e, (self', w')) ∧
    tasks self' = tasks self ∧
    name self' = default (name self) (dict_lookup "name" d) ∧
    ∀ c dt, dict_lookup "current_date" d = Some c → strptime_datetime c = Ok dt →
            current_date self' = dt.
Proof.
  intros Hfile Htasks Hin Hbad.
  unfold load, try_except.
  erewrite bind_ok by (unfold io, read_json; simpl; by rewrite Hfile).
  do 4 step. simpl.
  destruct (dict_lookup "current_date" d) as [c|] eqn:Hc; simpl.
  - pose proof (quiet_strptime_datetime c) as Hq.
    destruct (strptime_datetime c) as [dt|e] eqn:Hdt.
    + erewrite bind_ok; cycle 1.
      { erewrite bind_ok by (unfold lift; simpl; by rewrite ?Hc).
        erewrite bind_ok by (unfold lift; by rewrite ?Hdt). reflexivity. }
      erewrite bind_ok by (unfold lift; simpl; by rewrite ?Htasks).
      destruct (mapM_from_dict_unknown entries bad w Hin Hbad) as (e & w' & Hm & He).
      erewrite bind_raise by (unfold io; simpl; by rewrite Hm).
      eexists e, _, w'. split; [by destruct e|].
      simpl. repeat split. intros ?? [= <-] ?. congruence.
    + erewrite bind_raise; cycle 1.
      { erewrite bind_ok by (unfold lift; simpl; by rewrite ?Hc).
        erewrite bind_raise by (unfold lift; by rewrite ?Hdt). reflexivity. }
      eexists e, _, w. split; [by destruct e|].
      simpl. repeat split. intros ?? [= <-]. congruence.
  - step.
    erewrite bind_ok by (unfold lift; simpl; by rewrite ?Htasks).
    destruct (mapM_from_dict_unknown entries bad w Hin Hbad) as (e & w' & Hm & He).
    erewrite bind_raise by (unfold io; simpl; by rewrite Hm).
    eexists e, _, w'. split; [by destruct e|].
    simpl. repeat split. congruence.
Qed.

(** C8. [load] with the name of a file that does not
    exist returns normally: the project (name, current date, tasks) is
    as before, and the only effect is the line ["Nie ma pliku."] on the
    console. *)
Theorem load_missing_file filename (self : Project) (w : World) :
  files w !! filename = None →
  load filename (self, w) =
    (Ok (), (self, mkWorld (clock w) (ticks w) (stdout w ++ ["Nie ma pliku."]) (files w))).
Proof.
  intros Hfile. unfold load, try_except.
  erewrite bind_raise by (unfold io, read_json; simpl; by rewrite Hfile).
  reflexivity.
Qed.

(** C3. A mapping whose [task_type] names no
    registered class makes [from_dict] raise the unknown-type
    [ValueError]: no task is returned, not even the clock is read.  An
    entry of that kind in the ["tasks"] list of a document makes
    [from_json] raise, and makes [load] of a file holding the document
    raise to its caller; neither returns a project without the entry. *)
Theorem unknown_type_rejected (entry : value) (id : string) (w : World) :
  py_getitem entry "task_type" = Ok (VStr id) → registry !! id = None →
  from_dict entry w = (Raise (ValueError (UnknownTaskType (VStr id))), w) ∧
  (∀ d entries,
     dict_lookup "tasks" d = Some (VList entries) → entry ∈ entries →
     (∃ e w', from_json (VDict d) w = (Raise e, w')) ∧
     (∀ filename self,
        files w !! filename = Some (JsonText (VDict d)) →
        ∃ e s', load filename (self, w) = (Raise e, s'))).
Proof.
  intros Hty Hreg. split; [by apply from_dict_unknown|].
  assert (unregistered entry) as Hbad by (by exists id).
  intros d entries Htasks Hin. split.
  - unfold from_json. do 3 step.
    destruct (mapM_from_dict_unknown entries entry) with (w := mkWorld (clock w) (Datatypes.S (ticks w)) (stdout w) (files w))
      as (e & w' & Hm & _); [done..|].
    simpl. destruct (dict_lookup "current_date" d) as [c|] eqn:Hc; simpl.
    + destruct (strptime_datetime c) as [dt|e'] eqn:Hdt.
      * erewrite bind_ok; cycle 1.
        { erewrite bind_ok by (unfold lift; simpl; by rewrite ?Hc).
          erewrite bind_ok by (unfold lift; by rewrite ?Hdt). reflexivity. }
        erewrite bind_ok by (unfold lift; simpl; by rewrite ?Htasks).
        erewrite bind_raise by exact Hm. eauto.
      * erewrite bind_raise; cycle 1.
        { erewrite bind_ok by (unfold lift; simpl; by rewrite ?Hc).
          erewrite bind_raise by (unfold lift; by rewrite ?Hdt). reflexivity. }
        eauto.
    + step. erewrite bind_ok by (unfold lift; simpl; by rewrite ?Htasks).
      erewrite bind_raise by exact Hm. eauto.
  - intros filename self Hfile.
    destruct (load_unregistered_entry filename self w d entries entry)
      as (e & self' & w' & Hload & _); [done..|]. eauto.
Qed.

(** C10. [load] is not all-or-nothing.  When the file
    holds a document with a name, a well-formed current date and a task
    list one of whose entries has an unregistered type, the call raises,
    and at that point [tasks] is what it was before the call while
    [name] and [current_date] are already those of the document. *)
Theorem load_partial_update filename (self : Project) (w : World)
    d entries bad nm c dt :
  files w !! filename = Some (JsonText (VDict d)) →
  dict_lookup "name" d = Some nm →
  dict_lookup "current_date" d = Some c → strptime_datetime c = Ok dt →
  dict_lookup "tasks" d = Some (VList entries) →
  bad ∈ entries → unregistered bad →
  ∃ e self' w', load filename (self, w) = (Raise e, (self', w')) ∧
    tasks self' = tasks self ∧ name self' = nm ∧ current_date self' = dt.
Proof.
  intros Hfile Hname Hc Hdt Htasks Hin Hbad.
  destruct (load_unregistered_entry filename self w d entries bad)
    as (e & self' & w' & Hload & Ht & Hn & Hd); [done..|].
  exists e, self', w'. rewrite Hname in Hn. eauto.
Qed.

End Load.

(** ** Loading on concrete files *)

Lemma load_missing_file_witness :
  load "missing.json" (rent_project, disk_world) =
    (Ok (), (rent_project,
             mkWorld (clock disk_world) (ticks disk_world)
                     (stdout disk_world ++ ["Nie ma pliku."]) (files disk_world))).
Proof. apply (load_missing_file "missing.json" rent_project disk_world). reflexivity. Defined.

Lemma unknown_type_rejected_witness :
  from_dict bogus_entry disk_world =
    (Raise (ValueError (UnknownTaskType (VStr "Bogus"))), disk_world) ∧
  (∀ d entries,
     dict_lookup "tasks" d = Some (VList entries) → bogus_entry ∈ entries →
     (∃ e w', from_json (VDict d) disk_world = (Raise e, w')) ∧
     (∀ filename self,
        files disk_world !! filename = Some (JsonText (VDict d)) →
        ∃ e s', load filename (self, disk_world) = (Raise e, s'))).
Proof. apply (unknown_type_rejected bogus_entry "Bogus" disk_world); reflexivity. Defined.

Lemma bogus_entry_unregistered : unregistered bogus_entry.
Proof. by exists "Bogus". Defined.

Lemma load_partial_update_witness :
  ∃ e self' w', load "tasks.json" (rent_project, disk_world) = (Raise e, (self', w')) ∧
    tasks self' = tasks rent_project ∧ name self' = VStr "imported" ∧
    current_date self' = mkDatetime 2024 7 1 10 0 0 0.
Proof.
  apply (load_partial_update "tasks.json" rent_project disk_world bogus_document
           [rent_dict; bogus_entry] bogus_entry (VStr "imported")
           (VStr "2024-07-01 10:00:00") (mkDatetime 2024 7 1 10 0 0 0)).
  - reflexivity.
  - reflexivity.
  - reflexivity.
  - reflexivity.
  - reflexivity.
  - right. left.
  - exact bogus_entry_unregistered.
Defined.

(** The same call, evaluated: the first entry deserialises, the second
    raises; the project keeps its task and has the document's name and
    date. *)
Example load_bogus_document :
  load "tasks.json" (rent_project, disk_world) =
    (Raise (ValueError (UnknownTaskType (VStr "Bogus"))),
     (mkProject (VStr "imported") [rent_task] (mkDatetime 2024 7 1 10 0 0 0),
      advance 1 disk_world)).
Proof. reflexivity. Qed.

Example from_json_bogus_document :
  (from_json (VDict bogus_document) disk_world).1 =
    Raise (ValueError (UnknownTaskType (VStr "Bogus"))).
Proof. reflexivity. Qed.

(* ===================================================================== *)
(** * Overdue tasks                                                       *)
(* ===================================================================== *)

Section Overdue.

Lemma overdue_loop_spec (today : datetime) (ts acc : list Task) :
  forallb deadline_readable ts = true →
  overdue_loop today ts acc = Ok (acc ++ List.filter (overdue_spec today) ts).
Proof.
  revert acc. induction ts as [|t ts IH]; intros acc Hts; simpl.
  { by rewrite app_nil_r. }
  simpl in Hts. apply andb_prop in Hts as [Ht Hts].
  unfold deadline_readable in Ht. unfold overdue_spec, isinstance, getattr.
  destruct (cls t); simpl; [|by apply IH..].
  destruct (attrs t !! "deadline") as [d|]; [|done]. simpl.
  destruct (py_truthy d && negb (py_eq (status t) (VStr "done"))); simpl in *.
  - destruct (strptime_date d) as [date|]; [|done]. simpl.
    destruct (Datetime.ltb date today); rewrite IH by done; [|done].
    by rewrite <- app_assoc.
  - by apply IH.
Qed.

(** C5. On a project whose deadlines are readable,
    [get_overdue_tasks] returns, in the order of the collection, exactly
    the tasks that are [RegularTask]s with a non-empty deadline, a status
    other than done and a deadline date strictly before the project's
    current date.  A task of another class is never among them, whatever
    attributes it carries. *)
Theorem get_overdue_tasks_spec (self : Project) :
  forallb deadline_readable (tasks self) = true →
  get_overdue_tasks self =
    Ok (List.filter (overdue_spec (current_date self)) (tasks self)) ∧
  ∀ l t, get_overdue_tasks self = Ok l → t ∈ l →
         t ∈ tasks self ∧ cls t = RegularTask.
Proof.
  intros H. unfold get_overdue_tasks. rewrite overdue_loop_spec by done. simpl.
  split; [done|]. intros l t [= <-] Ht.
  apply list_elem_of_In, filter_In in Ht as [Hin Ht].
  split; [by apply list_elem_of_In|].
  unfold overdue_spec in Ht. apply andb_prop in Ht as [Ht _].
  by apply bool_decide_eq_true in Ht.
Qed.

(** Whatever the data, a task of another class is skipped without a look
    at its attributes. *)
Lemma overdue_loop_skip (today : datetime) (t : Task) (ts acc : list Task) :
  cls t ≠ RegularTask →
  overdue_loop today (t :: ts) acc = overdue_loop today ts acc.
Proof.
  intros H. simpl. unfold isinstance. by rewrite bool_decide_eq_false_2.
Qed.

End Overdue.

Lemma get_overdue_tasks_spec_witness :
  get_overdue_tasks overdue_project =
    Ok (List.filter (overdue_spec (current_date overdue_project)) (tasks overdue_project)) ∧
  ∀ l t, get_overdue_tasks overdue_project = Ok l → t ∈ l →
         t ∈ tasks overdue_project ∧ cls t = RegularTask.
Proof. apply (get_overdue_tasks_spec overdue_project). reflexivity. Defined.

Example get_overdue_tasks_example :
  get_overdue_tasks overdue_project = Ok [pending_task].
Proof. reflexivity. Qed.

(** A deadline that has to be inspected and is not a date makes the call
    raise what [strptime] raises. *)
Example get_overdue_tasks_unreadable :
  get_overdue_tasks
    (mkProject (VStr "demo") [regular_task "vague" (VStr "next week")] t0) =
    Raise (ValueError BadTimeFormat).
Proof. reflexivity. Qed.

(** The constructor gives every [RegularTask] its [deadline] attribute. *)
Lemma RegularTask_init_deadline (ti de st deadline : value) (w : World) :
  ∃ t w', RegularTask_init ti de st deadline w = (Ok t, w') ∧ cls t = RegularTask ∧
          attrs t !! "deadline" = Some deadline.
Proof. by eexists _, _. Qed.

(* ===================================================================== *)
(** * Sorting                                                             *)
(* ===================================================================== *)

(** ** The sort when every comparison succeeds

    [pkey] gives each element a key in an ordered type [K'] with the
    strict order [ltb]; the keys the program computes are their images
    under [inj], on which [lt] agrees with [ltb]. *)
Section SortTheory.
Context {K K' A : Type} `{EqDecision K'}.
Context (lt : K → K → result bool) (inj : K' → K) (ltb : K' → K' → bool).
Context (pkey : A → K').

Hypothesis lt_inj : ∀ a b, lt (inj a) (inj b) = Ok (ltb a b).
Hypothesis ltb_asym : ∀ a b, ltb a b = true → ltb b a = false.
Hypothesis ltb_negtrans : ∀ a b c, ltb b a = false → ltb c b = false → ltb c a = false.

Local Abbreviation insert_by := (insert_by ltb pkey).
Local Abbreviation stable_sort := (stable_sort ltb pkey).
Local Abbreviation key_le := (key_le ltb pkey).
Local Abbreviation with_key := (with_key pkey).
Local Abbreviation tag := (tag inj pkey).

Lemma sort_insert_tag (x : A) (l : list A) :
  sort_insert lt (tag x) (tag <$> l) = Ok (tag <$> insert_by x l).
Proof.
  induction l as [|y l IH]; [done|].
  csimpl. rewrite lt_inj. simpl.
  destruct (ltb (pkey y) (pkey x)); [|done].
  fold (tag x). by rewrite IH.
Qed.

Lemma sort_pairs_tag (l : list A) :
  sort_pairs lt (tag <$> l) = Ok (tag <$> stable_sort l).
Proof.
  induction l as [|x l IH]; [done|].
  csimpl. rewrite IH. simpl. apply sort_insert_tag.
Qed.

Lemma list_sort_stable (key : A → result K) (l : list A) :
  Forall (λ x, key x = Ok (inj (pkey x))) l →
  list_sort lt key l = Ok (stable_sort l).
Proof.
  intros Hkey. unfold list_sort.
  assert (result_mapM (λ x, k ← key x; Ok (k, x)) l = Ok (tag <$> l)) as ->.
  { induction Hkey as [|x l Hx _ IH]; [done|]. simpl. by rewrite Hx, IH. }
  simpl. rewrite sort_pairs_tag. simpl. f_equal.
  rewrite <- list_fmap_compose. apply list_fmap_id.
Qed.

Lemma insert_by_perm (x : A) (l : list A) : insert_by x l ≡ₚ x :: l.
Proof.
  induction l as [|y l IH]; [done|]. simpl.
  destruct (ltb (pkey y) (pkey x)); [|done].
  by rewrite IH, Permutation_swap.
Qed.

Lemma stable_sort_perm (l : list A) : stable_sort l ≡ₚ l.
Proof.
  induction l as [|x l IH]; [done|]. simpl.
  by rewrite insert_by_perm, IH.
Qed.

Lemma insert_by_sorted (x : A) (l : list A) :
  StronglySorted key_le l → StronglySorted key_le (insert_by x l).
Proof.
  induction 1 as [|y l Hl IH Hy]; simpl.
  { repeat constructor. }
  destruct (ltb (pkey y) (pkey x)) eqn:E.
  - constructor; [done|].
    rewrite insert_by_perm. constructor; [|done].
    by apply ltb_asym.
  - constructor; [by constructor|].
    constructor; [done|].
    eapply Forall_impl; [exact Hy|]. intros z Hz.
    unfold key_le in *. by eapply ltb_negtrans.
Qed.

Lemma stable_sort_sorted (l : list A) : StronglySorted key_le (stable_sort l).
Proof.
  induction l; simpl; [constructor|by apply insert_by_sorted].
Qed.

Lemma insert_by_with_key (k : K') (x : A) (l : list A) :
  with_key k (insert_by x l) = with_key k (x :: l).
Proof.
  induction l as [|y l IH]; [done|]. simpl.
  destruct (ltb (pkey y) (pkey x)) eqn:E; [|done].
  unfold with_key in *. simpl in *. rewrite IH.
  do 2 case_bool_decide; try done.
  subst k. rewrite <- H0 in E. by rewrite (ltb_asym _ _ E) in E.
Qed.

Lemma stable_sort_with_key (k : K') (l : list A) :
  with_key k (stable_sort l) = with_key k l.
Proof.
  induction l as [|x l IH]; [done|]. simpl.
  rewrite insert_by_with_key. unfold with_key in *. simpl. by rewrite IH.
Qed.

Lemma sorted_lookup (l : list A) (i j : nat) (a b : A) :
  StronglySorted key_le l → l !! i = Some a → l !! j = Some b → i < j → key_le a b.
Proof.
  intros Hl. revert i j. induction Hl as [|x l Hl IH Hx]; intros i j Hi Hj Hij; [done|].
  destruct j as [|j]; [lia|]. destruct i as [|i]; simplify_eq/=.
  - rewrite Forall_forall in Hx. apply Hx. by eapply list_elem_of_lookup_2.
  - eapply IH; [done..|lia].
Qed.
End SortTheory.

Lemma result_mapM_ok {A B} (f : A → result B) (g : A → B) (l : list A) :
  Forall (λ x, f x = Ok (g x)) l → result_mapM f l = Ok (g <$> l).
Proof. induction 1 as [|x l Hx _ IH]; [done|]. simpl. by rewrite Hx, IH. Qed.

(** ** The sort when a comparison fails *)
Section SortFailure.

(** A failing comparison is a [TypeError]. *)
Lemma py_lt_raises : ∀ a b e, py_lt a b = Raise e → e = TypeError.
Proof.
  fix IH 1. intros a b e.
  destruct a as [|x|x|x|xs|d]; destruct b as [|y|y|y|ys|d']; simpl; try congruence.
  revert ys. induction xs as [|x xs IHxs]; intros [|y ys]; try congruence.
  destruct (py_eq x y); [apply IHxs | apply IH].
Qed.

Lemma py_lt_none_l (b : value) : py_lt VNone b = Raise TypeError.
Proof. by destruct b. Qed.

Lemma py_lt_none_r (a : value) : py_lt a VNone = Raise TypeError.
Proof. by destruct a. Qed.

Context {A : Type}.
Implicit Types (x : value * A) (l s : list (value * A)).

Lemma sort_insert_raises x l e : sort_insert py_lt x l = Raise e → e = TypeError.
Proof.
  induction l as [|y l IH]; simpl; [done|].
  destruct (py_lt y.1 x.1) as [[]|e'] eqn:E; simpl.
  - destruct (sort_insert py_lt x l); simpl; [done|]. intros [= <-]. by apply IH.
  - done.
  - intros [= <-]. by eapply py_lt_raises.
Qed.

Lemma sort_pairs_raises l e : sort_pairs py_lt l = Raise e → e = TypeError.
Proof.
  induction l as [|x l IH]; simpl; [done|].
  destruct (sort_pairs py_lt l) as [s|e']; simpl.
  - apply sort_insert_raises.
  - intros [= <-]. by apply IH.
Qed.

Lemma sort_insert_length x l s : sort_insert py_lt x l = Ok s → length s = S (length l).
Proof.
  revert s. induction l as [|y l IH]; intros s; simpl; [by intros [= <-]|].
  destruct (py_lt y.1 x.1) as [[]|]; simpl; [|by intros [= <-]|done].
  destruct (sort_insert py_lt x l) as [s'|]; simpl; [|done].
  intros [= <-]. simpl. by rewrite (IH s').
Qed.

Lemma sort_insert_elem x l s z : sort_insert py_lt x l = Ok s → z ∈ x :: l → z ∈ s.
Proof.
  revert s. induction l as [|y l IH]; intros s; simpl; [by intros [= <-]|].
  destruct (py_lt y.1 x.1) as [[]|]; simpl; [|by intros [= <-]|done].
  destruct (sort_insert py_lt x l) as [s'|]; simpl; [|done].
  intros [= <-]. rewrite !elem_of_cons. intros [->|[->|Hz]].
  - right. apply IH; [done|]. by left.
  - by left.
  - right. apply IH; [done|]. by right.
Qed.

Lemma sort_pairs_length l s : sort_pairs py_lt l = Ok s → length s = length l.
Proof.
  revert s. induction l as [|x l IH]; intros s; simpl; [by intros [= <-]|].
  destruct (sort_pairs py_lt l) as [s'|]; simpl; [|done].
  intros H. rewrite (sort_insert_length _ _ _ H). by rewrite (IH s').
Qed.

Lemma sort_pairs_elem l s z : sort_pairs py_lt l = Ok s → z ∈ l → z ∈ s.
Proof.
  revert s. induction l as [|x l IH]; intros s; simpl; [by intros [= <-]|].
  destruct (sort_pairs py_lt l) as [s'|]; simpl; [|done].
  intros H. rewrite elem_of_cons. intros [->|Hz].
  - eapply sort_insert_elem; [done|]. by left.
  - eapply sort_insert_elem; [done|]. right. by apply IH.
Qed.

(** [None] can be compared with nothing, and every element of a list of
    two or more takes part in a comparison: a key [None] is only
    tolerated alone. *)
Lemma sort_pairs_none l s z :
  sort_pairs py_lt l = Ok s → z ∈ l → z.1 = VNone → length l ≤ 1.
Proof.
  revert s. induction l as [|x l IH]; intros s; simpl; [lia|].
  destruct (sort_pairs py_lt l) as [s'|] eqn:Hs'; simpl; [|done].
  intros Hins Hz Hnone.
  destruct s' as [|y s'].
  { apply sort_pairs_length in Hs'. simpl in Hs'. lia. }
  exfalso. simpl in Hins.
  apply elem_of_cons in Hz as [->|Hz].
  - rewrite Hnone, py_lt_none_r in Hins. done.
  - assert (length l ≤ 1) as Hlen by by eapply IH.
    pose proof (sort_pairs_length _ _ Hs') as Hl. simpl in Hl.
    assert (s' = []) as -> by (destruct s'; [done|simpl in *; lia]).
    apply (sort_pairs_elem _ _ _ Hs') in Hz.
    apply list_elem_of_singleton in Hz as <-.
    rewrite Hnone, py_lt_none_l in Hins. done.
Qed.

Lemma list_sort_none (key : A → value) (l : list A) (a b : A) :
  a ∈ l → b ∈ l → key a = VNone → key b ≠ VNone →
  list_sort py_lt (λ t, Ok (key t)) l = Raise TypeError.
Proof.
  intros Ha Hb Hka Hkb. unfold list_sort.
  rewrite (result_mapM_ok _ (λ t, (key t, t))) by (by apply Forall_true).
  simpl. destruct (sort_pairs py_lt _) as [s|e] eqn:Hs; simpl.
  - exfalso.
    assert (length ((λ t, (key t, t)) <$> l) ≤ 1) as Hlen.
    { eapply (sort_pairs_none _ _ (key a, a)); [done| |done].
      apply list_elem_of_fmap. eauto. }
    rewrite length_fmap in Hlen.
    destruct l as [|t [|t' l]]; simpl in Hlen; [by apply elem_of_nil in Ha| |lia].
    apply list_elem_of_singleton in Ha, Hb. congruence.
  - f_equal. by eapply sort_pairs_raises.
Qed.
End SortFailure.

(** ** [sort_tasks] *)

Section SortTasks.

Lemma sort_tasks_deadline_eq (self : Project) (w : World) :
  sort_tasks "deadline" (self, w) =
    match list_sort py_lt deadline_key (tasks self) with
    | Ok sorted =>
        (Ok (), (with_tasks self sorted, print_line w "Zadania posortowane wedlug: deadline"))
    | Raise e => (Raise e, (self, w))
    end.
Proof.
  unfold sort_tasks. erewrite bind_ok by reflexivity. simpl.
  unfold mbind at 1, M_mbind, M_bind, lift.
  by destruct (list_sort py_lt deadline_key (tasks self)).
Qed.

Lemma sort_tasks_priority_eq (self : Project) (w : World) :
  sort_tasks "priority" (self, w) =
    match list_sort py_lt priority_key (tasks self) with
    | Ok sorted =>
        (Ok (), (with_tasks self sorted, print_line w "Zadania posortowane wedlug: priority"))
    | Raise e => (Raise e, (self, w))
    end.
Proof.
  unfold sort_tasks. erewrite bind_ok by reflexivity. simpl.
  unfold mbind at 1, M_mbind, M_bind, lift.
  by destruct (list_sort py_lt priority_key (tasks self)).
Qed.

(** *** By priority *)

Lemma py_lt_rank_key (a b : Z) : py_lt (rank_key a) (rank_key b) = Ok (rank_before a b).
Proof.
  unfold rank_key, rank_before. simpl. f_equal.
  destruct (Z.ltb_spec (- a) (- b)), (Z.ltb_spec b a); (done || lia).
Qed.

Lemma rank_before_asym (a b : Z) : rank_before a b = true → rank_before b a = false.
Proof. unfold rank_before. lia. Qed.

Lemma rank_before_negtrans (a b c : Z) :
  rank_before b a = false → rank_before c b = false → rank_before c a = false.
Proof. unfold rank_before. lia. Qed.

Lemma priority_order_lookup (s : string) :
  from_option id 0%Z (PRIORITY_ORDER !! s) =
    if String.eqb s "HIGH" then 3%Z
    else if String.eqb s "MEDIUM" then 2%Z
    else if String.eqb s "LOW" then 1%Z
    else 0%Z.
Proof.
  unfold PRIORITY_ORDER. rewrite !lookup_insert, lookup_singleton.
  repeat match goal with
         | |- context [String.eqb s ?k] =>
             destruct (String.eqb_spec s k) as [->|?]; [reflexivity|]
         end.
  repeat (case_decide; [congruence|]). done.
Qed.

Lemma priority_key_rank (t : Task) :
  priority_hashable t = true → priority_key t = Ok (rank_key (priority_rank t)).
Proof.
  unfold priority_hashable, priority_key, priority_rank, getattr_default, priority_order_get.
  destruct (attrs t !! "priority") as [v|]; simpl; [|done].
  intros ->. simpl. destruct v; try done.
  by rewrite priority_order_lookup.
Qed.

Lemma priority_rank_range (t : Task) : (0 ≤ priority_rank t ≤ 3)%Z.
Proof.
  unfold priority_rank. destruct (attrs t !! "priority") as [[]|]; try lia.
  repeat case_match; lia.
Qed.

(** C6. Sorting by priority succeeds and rearranges the
    project's own collection (name and current date stay, one line is
    printed).  The new order is a rearrangement of the old one in which
    ranks never increase from front to back, the rank being HIGH 3,
    MEDIUM 2, LOW 1 and 0 for a task with no priority or an unknown one,
    so that those come last; and tasks of equal rank stand in the order
    they had before. *)
Theorem sort_tasks_priority (self : Project) (w : World) :
  forallb priority_hashable (tasks self) = true →
  ∃ sorted,
    sort_tasks "priority" (self, w) =
      (Ok (), (with_tasks self sorted,
               print_line w "Zadania posortowane wedlug: priority")) ∧
    sorted ≡ₚ tasks self ∧
    (∀ i j a b, sorted !! i = Some a → sorted !! j = Some b → i < j →
                (priority_rank b ≤ priority_rank a)%Z) ∧
    (∀ i j a b, sorted !! i = Some a → sorted !! j = Some b → i < j →
                priority_rank a = 0%Z → priority_rank b = 0%Z) ∧
    (∀ r, with_key priority_rank r sorted = with_key priority_rank r (tasks self)).
Proof.
  intros Hh. exists (stable_sort rank_before priority_rank (tasks self)).
  assert (∀ i j a b,
    stable_sort rank_before priority_rank (tasks self) !! i = Some a →
    stable_sort rank_before priority_rank (tasks self) !! j = Some b → i < j →
    (priority_rank b ≤ priority_rank a)%Z) as Hdesc.
  { intros i j a b Hi Hj Hij.
    pose proof (sorted_lookup rank_before priority_rank _ i j a b
      (stable_sort_sorted _ _ rank_before_asym rank_before_negtrans _) Hi Hj Hij) as Hle.
    unfold key_le, rank_before in Hle. lia. }
  split; [|split; [|split; [|split]]].
  - rewrite sort_tasks_priority_eq.
    rewrite (list_sort_stable py_lt rank_key rank_before priority_rank py_lt_rank_key); [done|].
    apply Forall_forall. intros t Ht. apply priority_key_rank.
    rewrite forallb_forall in Hh. by apply Hh, list_elem_of_In.
  - apply stable_sort_perm.
  - exact Hdesc.
  - intros i j a b Hi Hj Hij Ha.
    pose proof (Hdesc i j a b Hi Hj Hij). pose proof (priority_rank_range b). lia.
  - intros r. apply stable_sort_with_key. apply rank_before_asym.
Qed.

End SortTasks.

Lemma sort_tasks_priority_witness :
  ∃ sorted,
    sort_tasks "priority" (priority_project, sample_world) =
      (Ok (), (with_tasks priority_project sorted,
               print_line sample_world "Zadania posortowane wedlug: priority")) ∧
    sorted ≡ₚ tasks priority_project ∧
    (∀ i j a b, sorted !! i = Some a → sorted !! j = Some b → i < j →
                (priority_rank b ≤ priority_rank a)%Z) ∧
    (∀ i j a b, sorted !! i = Some a → sorted !! j = Some b → i < j →
                priority_rank a = 0%Z → priority_rank b = 0%Z) ∧
    (∀ r, with_key priority_rank r sorted = with_key priority_rank r (tasks priority_project)).
Proof. apply (sort_tasks_priority priority_project sample_world). reflexivity. Defined.

Example sort_tasks_priority_example :
  (sort_tasks "priority" (priority_project, sample_world)).2.1 =
    with_tasks priority_project
      [priority_task "second" "HIGH"; priority_task "first" "MEDIUM";
       priority_task "third" "MEDIUM"].
Proof. reflexivity. Qed.

(** The constructor stores the priority as a string, in upper case. *)
Lemma PriorityTask_init_priority (ti de st : value) (p : string) (w : World) :
  ∃ t w', PriorityTask_init ti de st (VStr p) w = (Ok t, w') ∧
          attrs t !! "priority" = Some (VStr (upper p)) ∧ priority_hashable t = true.
Proof. by eexists _, _. Qed.

(** A priority that cannot be hashed, as a hand-written file can give,
    makes the lookup in [PRIORITY_ORDER] raise. *)
Example sort_tasks_priority_unhashable :
  (sort_tasks "priority"
     (mkProject (VStr "demo")
        [mkTask PriorityTask (VStr "a") (VStr "") (VStr "pending") t0
                {["priority" := VList []]}] t0, sample_world)).1 = Raise TypeError.
Proof. reflexivity. Qed.

(** A task of another class, and a priority that is not in the table, go
    behind the ranked ones and keep their order. *)
Example sort_tasks_priority_unranked :
  (sort_tasks "priority"
     (mkProject (VStr "demo")
        [pending_task; priority_task "b" "URGENT"; priority_task "c" "LOW";
         priority_task "d" "HIGH"] t0, sample_world)).2.1.(tasks) =
    [priority_task "d" "HIGH"; priority_task "c" "LOW"; pending_task;
     priority_task "b" "URGENT"].
Proof. reflexivity. Qed.

Section SortByDeadline.

Lemma string_ltb_leb (a b : string) : String.ltb a b = negb (String.leb b a).
Proof.
  unfold String.ltb, String.leb. rewrite (String.compare_antisym b a).
  by destruct (String.compare a b).
Qed.

Lemma string_ltb_asym (a b : string) : String.ltb a b = true → String.ltb b a = false.
Proof.
  unfold String.ltb. rewrite (String.compare_antisym b a).
  by destruct (String.compare a b).
Qed.

Lemma string_ltb_negtrans (a b c : string) :
  String.ltb b a = false → String.ltb c b = false → String.ltb c a = false.
Proof.
  rewrite !string_ltb_leb, !negb_false_iff. intros Hab Hbc.
  apply Is_true_true. apply Is_true_true in Hab, Hbc.
  change (a ≤ c)%string. by trans b.
Qed.

Lemma py_lt_text (a b : string) : py_lt (VStr a) (VStr b) = Ok (String.ltb a b).
Proof. done. Qed.

Lemma deadline_key_text (t : Task) :
  deadline_is_text t = true → deadline_key t = Ok (VStr (deadline_text t)).
Proof.
  unfold deadline_is_text, deadline_key, deadline_text, getattr_default.
  by destruct (attrs t !! "deadline") as [[]|].
Qed.

(** C7, as the program has it. On a project whose
    deadlines are texts, sorting by deadline succeeds and rearranges the
    project's own collection in ascending order of the deadline text, a
    task without a [deadline] attribute counting as ["9999-12-31"];
    tasks with the same text keep their order.  A task without the
    attribute therefore stands behind every task whose deadline text is
    smaller than ["9999-12-31"], which by [strftime_date_before_last] is
    every printed date but the last. *)
Theorem sort_tasks_deadline (self : Project) (w : World) :
  forallb deadline_is_text (tasks self) = true →
  ∃ sorted,
    sort_tasks "deadline" (self, w) =
      (Ok (), (with_tasks self sorted,
               print_line w "Zadania posortowane wedlug: deadline")) ∧
    sorted ≡ₚ tasks self ∧
    (∀ i j a b, sorted !! i = Some a → sorted !! j = Some b → i < j →
                String.leb (deadline_text a) (deadline_text b) = true) ∧
    (∀ s, with_key deadline_text s sorted = with_key deadline_text s (tasks self)) ∧
    (∀ i j a b d, sorted !! i = Some a → sorted !! j = Some b →
                  attrs a !! "deadline" = None →
                  attrs b !! "deadline" = Some (VStr d) →
                  String.ltb d "9999-12-31" = true → j < i).
Proof.
  intros Hh. exists (stable_sort String.ltb deadline_text (tasks self)).
  assert (∀ i j a b,
    stable_sort String.ltb deadline_text (tasks self) !! i = Some a →
    stable_sort String.ltb deadline_text (tasks self) !! j = Some b → i < j →
    String.leb (deadline_text a) (deadline_text b) = true) as Hasc.
  { intros i j a b Hi Hj Hij.
    pose proof (sorted_lookup String.ltb deadline_text _ i j a b
      (stable_sort_sorted _ _ string_ltb_asym string_ltb_negtrans _) Hi Hj Hij) as Hle.
    unfold key_le in Hle. rewrite string_ltb_leb in Hle. by apply negb_false_iff. }
  split; [|split; [|split; [|split]]].
  - rewrite sort_tasks_deadline_eq.
    rewrite (list_sort_stable py_lt VStr String.ltb deadline_text py_lt_text); [done|].
    apply Forall_forall. intros t Ht. apply deadline_key_text.
    rewrite forallb_forall in Hh. by apply Hh, list_elem_of_In.
  - apply stable_sort_perm.
  - exact Hasc.
  - intros s. apply stable_sort_with_key. apply string_ltb_asym.
  - intros i j a b d Hi Hj Ha Hb Hd.
    destruct (decide (j < i)) as [|Hge]; [done|]. exfalso.
    destruct (decide (i = j)) as [->|Hne]; [congruence|].
    assert (String.leb (deadline_text a) (deadline_text b) = true) as Hle.
    { apply (Hasc i j); [done..|lia]. }
    unfold deadline_text in Hle. rewrite Ha, Hb in Hle.
    rewrite string_ltb_leb in Hd. by rewrite Hle in Hd.
Qed.

(** C9. A task whose [deadline] is [None], as the
    constructor of [RegularTask] leaves it by default, makes sorting by
    deadline raise [TypeError] as soon as the collection holds another
    task whose key is a text. *)
Theorem sort_tasks_deadline_none (self : Project) (w : World) (t u : Task) (s : string) :
  t ∈ tasks self → attrs t !! "deadline" = Some VNone →
  u ∈ tasks self → getattr_default u "deadline" (VStr "9999-12-31") = VStr s →
  (sort_tasks "deadline" (self, w)).1 = Raise TypeError.
Proof.
  intros Ht Hnone Hu Hs. rewrite sort_tasks_deadline_eq.
  unfold deadline_key.
  rewrite (list_sort_none (λ t, getattr_default t "deadline" (VStr "9999-12-31"))
             (tasks self) t u); [done..| |].
  - unfold getattr_default. by rewrite Hnone.
  - by rewrite Hs.
Qed.

(** The default of the constructor. *)
Lemma RegularTask_init_default (ti de st : value) (w : World) :
  ∃ t w', construct RegularTask ti de st w = (Ok t, w') ∧ cls t = RegularTask ∧
          attrs t !! "deadline" = Some VNone.
Proof. by eexists _, _. Qed.

End SortByDeadline.

Lemma sort_tasks_deadline_witness :
  ∃ sorted,
    sort_tasks "deadline" (deadline_project, sample_world) =
      (Ok (), (with_tasks deadline_project sorted,
               print_line sample_world "Zadania posortowane wedlug: deadline")) ∧
    sorted ≡ₚ tasks deadline_project ∧
    (∀ i j a b, sorted !! i = Some a → sorted !! j = Some b → i < j →
                String.leb (deadline_text a) (deadline_text b) = true) ∧
    (∀ s, with_key deadline_text s sorted = with_key deadline_text s (tasks deadline_project)) ∧
    (∀ i j a b d, sorted !! i = Some a → sorted !! j = Some b →
                  attrs a !! "deadline" = None →
                  attrs b !! "deadline" = Some (VStr d) →
                  String.ltb d "9999-12-31" = true → j < i).
Proof. apply (sort_tasks_deadline deadline_project sample_world). reflexivity. Defined.

Example sort_tasks_deadline_example :
  (sort_tasks "deadline" (deadline_project, sample_world)).2.1.(tasks) =
    [regular_task "early" (VStr "2024-03-01"); regular_task "late" (VStr "2024-09-30");
     priority_task "no deadline" "LOW"].
Proof. reflexivity. Qed.

(** Where C7 as worded fails: a task without a deadline was added before
    a task due on 31 December 9999; their keys are the same text, the sort
    is stable, and the task without a deadline stays in front. *)
Example sort_tasks_deadline_last_day :
  (sort_tasks "deadline" (last_day_project, sample_world)).2.1.(tasks) =
    [priority_task "no deadline" "LOW"; regular_task "last day" (VStr "9999-12-31")].
Proof. reflexivity. Qed.

Lemma sort_tasks_deadline_counterexample :
  ¬ sort_tasks_deadline_stated last_day_project sample_world.
Proof.
  intros (sorted & w' & Hsort & Hlast).
  assert (sorted = tasks last_day_project) as ->.
  { vm_compute in Hsort. by injection Hsort as <- _. }
  specialize (Hlast 0 1 _ _ "9999-12-31" eq_refl eq_refl eq_refl eq_refl eq_refl). lia.
Qed.

Lemma sort_tasks_deadline_none_witness :
  (sort_tasks "deadline" (none_deadline_project, sample_world)).1 = Raise TypeError.
Proof.
  apply (sort_tasks_deadline_none none_deadline_project sample_world
           (regular_task "open end" VNone) (regular_task "early" (VStr "2024-03-01"))
           "2024-03-01").
  - by left.
  - reflexivity.
  - right. by left.
  - reflexivity.
Defined.

(* ===================================================================== *)
(** * The order of datetimes                                              *)
(* ===================================================================== *)

Section DatetimeOrder.
Import Datetime.

Ltac lex_step :=
  match goal with
  | H : context [(?x ?= ?y)%Z] |- _ =>
      destruct (Z.compare_spec x y); simpl in *; try discriminate; try lia
  | |- context [(?x ?= ?y)%Z] =>
      destruct (Z.compare_spec x y); simpl in *; try discriminate; try lia
  end.

Lemma datetime_compare_lt_trans (a b c : datetime) :
  compare a b = Lt → compare b c = Lt → compare a c = Lt.
Proof.
  destruct a, b, c. unfold compare, lex. simpl.
  intros Hab Hbc. repeat (lex_step; subst); done.
Qed.

Lemma datetime_compare_eq (a b : datetime) : compare a b = Eq → a = b.
Proof.
  destruct a, b. unfold compare, lex. simpl.
  intros H. repeat (lex_step; subst); done.
Qed.

Lemma datetime_compare_refl (a : datetime) : compare a a = Eq.
Proof. destruct a. unfold compare, lex. simpl. by rewrite !Z.compare_refl. Qed.

Lemma datetime_compare_antisym (a b : datetime) : compare b a = CompOpp (compare a b).
Proof.
  destruct a, b. unfold compare, lex. simpl.
  repeat (lex_step; subst); rewrite ?Z.compare_refl; done.
Qed.

Lemma datetime_ltb_irrefl (a : datetime) : ltb a a = false.
Proof. unfold ltb. by rewrite datetime_compare_refl. Qed.

Lemma datetime_ltb_asym (a b : datetime) : ltb a b = true → ltb b a = false.
Proof. unfold ltb. rewrite (datetime_compare_antisym a b). by destruct (compare a b). Qed.

Lemma datetime_ltb_trans (a b c : datetime) : ltb a b = true → ltb b c = true → ltb a c = true.
Proof.
  unfold ltb. intros Hab Hbc.
  destruct (compare a b) eqn:E1; try done. destruct (compare b c) eqn:E2; try done.
  by rewrite (datetime_compare_lt_trans _ _ _ E1 E2).
Qed.

Lemma datetime_ltb_negtrans (a b c : datetime) :
  ltb b a = false → ltb c b = false → ltb c a = false.
Proof.
  unfold ltb. rewrite (datetime_compare_antisym a b), (datetime_compare_antisym b c), (datetime_compare_antisym a c).
  destruct (compare a b) eqn:E1; simpl; try done;
    destruct (compare b c) eqn:E2; simpl; try done; intros _ _.
  - apply datetime_compare_eq in E1 as ->. by rewrite E2.
  - apply datetime_compare_eq in E1 as ->. by rewrite E2.
  - apply datetime_compare_eq in E2 as ->. by rewrite E1.
  - by rewrite (datetime_compare_lt_trans _ _ _ E1 E2).
Qed.

End DatetimeOrder.

(* ===================================================================== *)
(** * Deserialising a mapping                                             *)
(* ===================================================================== *)

Section FromDict.







Lemma dict_lookup_absent (k : string) (d : dict) :
  k ∉ d.*1 → dict_lookup k d = None.
Proof.
  induction d as [|[k' v] d IH]; [done|]. rewrite fmap_cons.
  intros [Hne Hk]%not_elem_of_cons. cbn [dict_lookup].
  destruct (String.eqb_spec k k'); [done|by apply IH].
Qed.



Lemma registry_lookup_Some (id : string) (c : task_class) :
  registry !! id = Some c → id = class_name c.
Proof.
  unfold registry, init_subclass. simpl. rewrite !lookup_insert, lookup_empty.
  repeat case_decide; naive_solver.
Qed.






Lemma to_dict_serialisable (t : Task) : is_ok (to_dict t) = serialisable t.
Proof.
  unfold to_dict, serialisable, getattr. destruct (cls t).
  - by destruct (attrs t !! "deadline").
  - by destruct (attrs t !! "priority").
  - destruct (attrs t !! "interval_days"); [|done]. by destruct (attrs t !! "start_date").
Qed.



End FromDict.


Example from_dict_extended_entry :
  (from_dict (VDict extended_entry) june_world).1 =
    Ok (mkTask RegularTask (VStr "report") (VStr "") (VStr "done")
               (mkDatetime 2024 5 5 10 0 0 0)
               {["deadline" := VStr "2024-06-01"; "colour" := VStr "red"]}).
Proof. reflexivity. Qed.


(* ===================================================================== *)
(** * What the operations leave alone                                     *)
(* ===================================================================== *)

Create HintDb frame discriminated.

Section Frame.
Context {S X : Type} (f : S → X).

Lemma preserves_ret {A} (a : A) : preserves f (mret a : M S A).
Proof. by intros s r s' [= <- <-]. Qed.

Lemma preserves_raise {A} (e : exn) : preserves f (raise e : M S A).
Proof. by intros s r s' [= <- <-]. Qed.

Lemma preserves_lift {A} (r : result A) : preserves f (lift r : M S A).
Proof. by intros s r' s' [= <- <-]. Qed.

Lemma preserves_bind {A B} (m : M S A) (k : A → M S B) :
  preserves f m → (∀ a, preserves f (k a)) → preserves f (m ≫= k).
Proof.
  intros Hm Hk s r s'. unfold mbind, M_mbind, M_bind.
  destruct (m s) as [[a|e] s1] eqn:E.
  - intros H. rewrite (Hk a _ _ _ H). by eapply Hm.
  - intros [= <- <-]. by eapply Hm.
Qed.

Lemma preserves_try {A} (m : M S A) (h : exn → option (M S A)) :
  preserves f m → (∀ e k, h e = Some k → preserves f k) → preserves f (try_except m h).
Proof.
  intros Hm Hh s r s'. unfold try_except.
  destruct (m s) as [[a|e] s1] eqn:E.
  - intros [= <- <-]. by eapply Hm.
  - destruct (h e) as [k|] eqn:Ek.
    + intros H. rewrite (Hh e k Ek _ _ _ H). by eapply Hm.
    + intros [= <- <-]. by eapply Hm.
Qed.

Lemma preserves_mapM {A B} (k : A → M S B) (l : list A) :
  (∀ a, preserves f (k a)) → preserves f (mapM k l).
Proof.
  intros Hk. induction l; simpl; [apply preserves_ret|].
  apply preserves_bind; [done|]. intros. apply preserves_bind; [done|].
  intros. apply preserves_ret.
Qed.
End Frame.

#[global] Hint Resolve preserves_ret preserves_raise preserves_lift preserves_mapM : frame.
#[global] Hint Extern 2 (preserves _ (_ ≫= _)) => apply preserves_bind; [|intros] : frame.
#[global] Hint Extern 3 (preserves _ (if ?b then _ else _)) => destruct b : frame.
#[global] Hint Extern 3 (preserves _ (match ?x with _ => _ end)) => destruct x : frame.

Lemma preserves_io {A X} (f : World → X) (m : M World A) :
  preserves f m → preserves (λ s : Project * World, f s.2) (io m).
Proof.
  intros Hm [p w] r [p' w']. unfold io. simpl.
  destruct (m w) as [r1 w1] eqn:E. intros [= <- <- <-]. by eapply Hm.
Qed.

Lemma preserves_io_project {A} (m : M World A) : preserves the_project (io m).
Proof.
  intros [p w] r [p' w']. unfold io. simpl.
  destruct (m w) as [r1 w1]. by intros [= <- <- <-].
Qed.

Lemma now_keeps_files : preserves files now.
Proof. by intros w r w' [= <- <-]. Qed.

Lemma now_keeps_console : preserves stdout now.
Proof. by intros w r w' [= <- <-]. Qed.

Lemma print_keeps_files line : preserves files (print line).
Proof. by intros w r w' [= <- <-]. Qed.

Lemma read_json_keeps_files filename : preserves files (read_json filename).
Proof. intros w r w'. unfold read_json. by repeat case_match; intros [= <- <-]. Qed.

#[global] Hint Resolve now_keeps_files now_keeps_console print_keeps_files
  read_json_keeps_files preserves_io_project : frame.

Lemma construct_keeps_files c ti de st : preserves files (construct c ti de st).
Proof.
  destruct c; unfold construct, RegularTask_init, PriorityTask_init,
    RecurringTask_init, Task_init; auto 30 with frame.
Qed.

Lemma construct_keeps_console c ti de st : preserves stdout (construct c ti de st).
Proof.
  destruct c; unfold construct, RegularTask_init, PriorityTask_init,
    RecurringTask_init, Task_init; auto 30 with frame.
Qed.
#[global] Hint Resolve construct_keeps_files construct_keeps_console : frame.

Lemma from_dict_keeps_files data : preserves files (from_dict data).
Proof. unfold from_dict. auto 30 with frame. Qed.

Lemma from_dict_keeps_console data : preserves stdout (from_dict data).
Proof. unfold from_dict. auto 30 with frame. Qed.
#[global] Hint Resolve from_dict_keeps_files from_dict_keeps_console : frame.

Lemma io_keeps_files {A} (m : M World A) :
  preserves files m → preserves the_files (io m).
Proof. apply (preserves_io files). Qed.

Lemma get_self_keeps {X} (f : Project * World → X) : preserves f get_self.
Proof. by intros s r s' [= <- <-]. Qed.

Lemma set_name_keeps_files v : preserves the_files (set_name v).
Proof. by intros s r s' [= <- <-]. Qed.

Lemma set_tasks_keeps_files l : preserves the_files (set_tasks l).
Proof. by intros s r s' [= <- <-]. Qed.

Lemma set_current_date_keeps_files d : preserves the_files (set_current_date d).
Proof. by intros s r s' [= <- <-]. Qed.

#[global] Hint Resolve io_keeps_files get_self_keeps set_name_keeps_files
  set_tasks_keeps_files set_current_date_keeps_files : frame.

Lemma load_keeps_files filename : preserves the_files (load filename).
Proof.
  unfold load. apply preserves_try.
  - auto 40 with frame.
  - intros e k. destruct e; try done. intros [= <-]. auto with frame.
Qed.

Lemma save_keeps_project filename : preserves the_project (save filename).
Proof. unfold save. auto 40 with frame. Qed.

(** X4. [load] never writes: whatever it returns or raises, every file
    is as it was.  [save] never changes the project it saves. *)
Theorem load_reads_save_writes (filename : string) (self : Project) (w : World) :
  files (load filename (self, w)).2.2 = files w ∧
  (save filename (self, w)).2.1 = self.
Proof.
  split.
  - destruct (load filename (self, w)) as [r s'] eqn:E.
    apply (load_keeps_files filename) in E. exact E.
  - destruct (save filename (self, w)) as [r s'] eqn:E.
    apply (save_keeps_project filename) in E. exact E.
Qed.

(* ===================================================================== *)
(** * The current date                                                    *)
(* ===================================================================== *)

Section CurrentDate.
Import Datetime.

Lemma strptime_date_midnight (v : value) (d : datetime) :
  strptime_date v = Ok d → midnight d = d.
Proof.
  unfold strptime_date. destruct v; try done.
  destruct (parse_date s) as [[[[y m] dd] [|]]|]; try done.
  destruct (valid_date y m dd); [|done]. by intros [= <-].
Qed.

Lemma strptime_date_text (v : value) (d : datetime) :
  strptime_date v = Ok d → ∃ s, v = VStr s ∧ s ≠ "".
Proof.
  unfold strptime_date. destruct v; try done. intros H. exists s. split; [done|].
  intros ->. done.
Qed.


Lemma set_date_text_run (s : string) (self : Project) (w : World) :
  set_date (DateText s) (self, w) =
    match strptime_date (VStr s) with
    | Ok d =>
        (Ok (), (mkProject (name self) (tasks self) d,
                 print_line w ("Data projektu ustawiona na: " +:+ strftime_date d)))
    | Raise e => (Raise e, (self, w))
    end.
Proof.
  unfold set_date. by destruct (strptime_date (VStr s)) as [d|e].
Qed.

(** X5. [set_date] with the text of a date sets the current date to
    that day at midnight and prints the same text back; the name and the
    tasks stay. *)
Theorem set_date_strftime (t : datetime) (self : Project) (w : World) :
  (1000 ≤ year t)%Z → valid_date (year t) (month t) (day t) = true →
  set_date (DateText (strftime_date t)) (self, w) =
    (Ok (), (mkProject (name self) (tasks self) (midnight t),
             print_line w ("Data projektu ustawiona na: " +:+ strftime_date t))).
Proof.
  intros Hy Hv. rewrite set_date_text_run, strptime_strftime_date by done. done.
Qed.


Lemma ltb_later_that_day (d0 now : datetime) :
  later_that_day d0 now → ltb (midnight d0) now = true.
Proof.
  destruct d0, now. unfold later_that_day, midnight, ltb, compare, lex. simpl.
  intros (-> & -> & -> & ? & ? & ? & ? & ?). rewrite !Z.compare_refl.
  destruct hour1, minute1, second1, microsecond1; simpl; done || lia.
Qed.

Lemma overdue_spec_due (t : Task) (s : string) (d0 today : datetime) :
  cls t = RegularTask → attrs t !! "deadline" = Some (VStr s) →
  strptime_date (VStr s) = Ok d0 → active t = true →
  overdue_spec today t = ltb d0 today.
Proof.
  intros Hc Ha Hs Hact. unfold overdue_spec. rewrite Hc, Ha, Hs.
  unfold active in Hact. rewrite Hact.
  destruct (strptime_date_text _ _ Hs) as (? & [= <-] & Hne).
  cbn [py_truthy]. destruct (String.eqb_spec s ""); [done|].
  by rewrite bool_decide_eq_true_2.
Qed.

(** X7. A task whose deadline is today is not overdue when the current
    date was set from a text, which gives midnight; it is overdue as soon
    as the current date carries a time of day, as the date of a newly
    created project does. *)
Theorem due_today (ts : list Task) (t : Task) (s : string) (d0 now : datetime)
    (nm : value) :
  forallb deadline_readable ts = true → t ∈ ts →
  cls t = RegularTask → attrs t !! "deadline" = Some (VStr s) →
  strptime_date (VStr s) = Ok d0 → active t = true →
  later_that_day d0 now →
  (∃ l, get_overdue_tasks (mkProject nm ts d0) = Ok l ∧ t ∉ l) ∧
  (∃ l, get_overdue_tasks (mkProject nm ts now) = Ok l ∧ t ∈ l).
Proof.
  intros Hts Hin Hc Ha Hs Hact Hlater. unfold get_overdue_tasks. simpl.
  rewrite !overdue_loop_spec by done. simpl.
  split; eexists; (split; [done|]); rewrite list_elem_of_In, filter_In;
    rewrite (overdue_spec_due t s d0) by done.
  - rewrite datetime_ltb_irrefl. by intros [_ ?].
  - split; [by apply list_elem_of_In|].
    rewrite <- (strptime_date_midnight _ _ Hs). by apply ltb_later_that_day.
Qed.

End CurrentDate.

Lemma set_date_strftime_witness :
  set_date (DateText (strftime_date june_15_noon)) (due_project, sample_world) =
    (Ok (), (mkProject (name due_project) (tasks due_project) (midnight june_15_noon),
             print_line sample_world
               ("Data projektu ustawiona na: " +:+ strftime_date june_15_noon))).
Proof.
  apply (set_date_strftime june_15_noon due_project sample_world); [simpl; lia|reflexivity].
Defined.

Lemma due_today_witness :
  (∃ l, get_overdue_tasks (mkProject (VStr "demo") [done_task; due_task] june_15) = Ok l ∧
        due_task ∉ l) ∧
  (∃ l, get_overdue_tasks (mkProject (VStr "demo") [done_task; due_task] june_15_noon) = Ok l ∧
        due_task ∈ l).
Proof.
  apply (due_today [done_task; due_task] due_task "2024-06-15" june_15 june_15_noon
           (VStr "demo")); try reflexivity.
  - apply list_elem_of_In. right. by left.
  - unfold later_that_day, june_15, june_15_noon. simpl. lia.
Defined.

(* ===================================================================== *)
(** * Adding and marking tasks                                            *)
(* ===================================================================== *)

Section Marking.
Context (fmt : value → string).
Implicit Types (self : Project) (w : World) (t task : Task) (wanted st : value).
Implicit Types (ts pre post : list Task).

Lemma mark_first_None wanted st ts :
  Forall (λ t, titled wanted t = false) ts → mark_first wanted st ts = None.
Proof.
  induction 1 as [|t ts Ht _ IH]; [done|]. simpl.
  unfold titled in Ht. by rewrite Ht, IH.
Qed.



Lemma mark_task_run (st : string) wanted self w :
  mark_task fmt st wanted (self, w) =
    match mark_first wanted (VStr st) (tasks self) with
    | Some ts => (Ok (), (with_tasks self ts, print_line w (marked_line fmt wanted st)))
    | None => (Ok (), (self, print_line w "Nie znaleziono zadania."))
    end.
Proof.
  unfold mark_task. erewrite bind_ok by reflexivity. simpl.
  by destruct (mark_first wanted (VStr st) (tasks self)).
Qed.



(** X9. When no task has the title asked for, marking changes nothing
    and reports it; it does not raise. *)
Theorem mark_task_not_found wanted self w :
  Forall (λ t, titled wanted t = false) (tasks self) →
  mark_task_done fmt wanted (self, w) =
    (Ok (), (self, print_line w "Nie znaleziono zadania.")) ∧
  mark_task_in_progress fmt wanted (self, w) =
    (Ok (), (self, print_line w "Nie znaleziono zadania.")).
Proof.
  intros Hall. unfold mark_task_done, mark_task_in_progress.
  rewrite !mark_task_run. by rewrite !mark_first_None.
Qed.

Lemma active_filter ts :
  filter (λ t, negb (py_eq (status t) (VStr "done")) = true) ts = List.filter active ts.
Proof.
  induction ts as [|t ts IH]; [done|]. rewrite filter_cons. simpl. unfold active at 1.
  rewrite <- IH. by destruct (negb _); case_decide.
Qed.

Lemma get_active_tasks_filter self : get_active_tasks self = List.filter active (tasks self).
Proof. apply active_filter. Qed.



End Marking.


Lemma mark_task_not_found_witness :
  mark_task_done str_of_text (VStr "taxes") (twice_project, sample_world) =
    (Ok (), (twice_project, print_line sample_world "Nie znaleziono zadania.")) ∧
  mark_task_in_progress str_of_text (VStr "taxes") (twice_project, sample_world) =
    (Ok (), (twice_project, print_line sample_world "Nie znaleziono zadania.")).
Proof.
  apply (mark_task_not_found str_of_text (VStr "taxes") twice_project sample_world).
  by repeat constructor.
Defined.



(* ===================================================================== *)
(** * Marking a shared task object                                        *)
(* ===================================================================== *)

Section SharedObjects.
Implicit Types (objs : gmap nat Task) (refs : list nat) (wanted st : value).

Lemma find_object_elem objs wanted refs r :
  find_object objs wanted refs = Some r →
  r ∈ refs ∧ ∃ t, objs !! r = Some t ∧ titled wanted t = true.
Proof.
  induction refs as [|r' refs IH]; [done|]. simpl.
  destruct (objs !! r') as [t|] eqn:Hr'.
  - destruct (py_eq (title t) wanted) eqn:Ht.
    + intros [= <-]. split; [by left|]. by exists t.
    + intros H. destruct (IH H) as [? ?]. split; [by right|done].
  - intros H. destruct (IH H) as [? ?]. split; [by right|done].
Qed.

Lemma contents_cons objs r refs :
  contents objs (r :: refs) =
    match objs !! r with
    | Some t => t :: contents objs refs
    | None => contents objs refs
    end.
Proof. reflexivity. Qed.

Lemma contents_alter_notin objs (f : Task → Task) r refs :
  r ∉ refs → contents (alter f r objs) refs = contents objs refs.
Proof.
  intros Hr. induction refs as [|r' refs IH]; [done|].
  apply not_elem_of_cons in Hr as [Hne Hr].
  rewrite !contents_cons, lookup_alter_ne by done. by rewrite IH.
Qed.

Lemma mark_object_skip objs wanted st r refs :
  r ∉ refs →
  (λ objs', contents objs' (r :: refs)) <$> mark_object objs wanted st refs =
    (λ l, match objs !! r with Some t => t :: l | None => l end) <$>
      ((λ objs', contents objs' refs) <$> mark_object objs wanted st refs).
Proof.
  intros Hr. unfold mark_object.
  destruct (find_object objs wanted refs) as [r0|] eqn:Hfind; [|done].
  destruct (find_object_elem _ _ _ _ Hfind) as [Hin _].
  cbn [mbind option_bind fmap option_fmap option_map].
  rewrite contents_cons, lookup_alter_ne by (intros ->; done). done.
Qed.

(** X12. The marking loop run on task objects, where the collection
    holds references and the assignment changes the object referred to,
    gives the collection that the loop on values gives, as long as no
    object was added to the project twice. *)
Theorem mark_object_refines objs wanted st refs :
  NoDup refs →
  (λ objs', contents objs' refs) <$> mark_object objs wanted st refs =
    mark_first wanted st (contents objs refs).
Proof.
  induction 1 as [|r refs Hr Hnd IH]; [done|].
  rewrite (contents_cons objs).
  destruct (objs !! r) as [t|] eqn:Hobj.
  - cbn [mark_first]. destruct (py_eq (title t) wanted) eqn:Ht.
    + unfold mark_object. cbn [find_object]. rewrite Hobj, Ht.
      cbn [mbind option_bind fmap option_fmap option_map].
      rewrite contents_cons, lookup_alter_eq, Hobj.
      cbn [fmap option_fmap option_map].
      by rewrite contents_alter_notin.
    + rewrite <- IH, <- (option_fmap_compose _ _ (mark_object objs wanted st refs)).
      unfold mark_object at 1. cbn [find_object]. rewrite Hobj, Ht.
      fold (mark_object objs wanted st refs).
      rewrite mark_object_skip, Hobj by done.
      by rewrite <- option_fmap_compose.
  - rewrite <- IH.
    unfold mark_object at 1. cbn [find_object]. rewrite Hobj.
    fold (mark_object objs wanted st refs).
    rewrite mark_object_skip, Hobj by done.
    by destruct (mark_object objs wanted st refs).
Qed.

End SharedObjects.

Lemma mark_object_refines_witness :
  (λ objs', contents objs' [0; 1]) <$>
    mark_object {[0 := gym_task; 1 := pending_task]} (VStr "report") (VStr "done") [0; 1] =
  mark_first (VStr "report") (VStr "done")
    (contents {[0 := gym_task; 1 := pending_task]} [0; 1]).
Proof.
  apply (mark_object_refines {[0 := gym_task; 1 := pending_task]} (VStr "report")
           (VStr "done") [0; 1]).
  apply (bool_decide_unpack _). by vm_compute.
Defined.

(** The same object added twice: marking changes both places, where the
    loop on values would change the first only. *)
Example mark_object_shared :
  (λ objs', contents objs' [0; 0]) <$>
    mark_object {[0 := pending_task]} (VStr "report") (VStr "done") [0; 0] =
  Some [done_task; done_task] ∧
  mark_first (VStr "report") (VStr "done") (contents {[0 := pending_task]} [0; 0]) =
  Some [done_task; pending_task].
Proof. split; reflexivity. Qed.

(* ===================================================================== *)
(** * Overdue tasks: errors, activity and the passing of time             *)
(* ===================================================================== *)

Section OverdueTime.
Import Datetime.

Lemma overdue_loop_readable (today : datetime) (ts acc l : list Task) :
  overdue_loop today ts acc = Ok l → forallb deadline_readable ts = true.
Proof.
  revert acc. induction ts as [|t ts IH]; intros acc; [done|]. simpl.
  unfold deadline_readable, isinstance, getattr.
  destruct (cls t); simpl; [|by apply IH..].
  destruct (attrs t !! "deadline") as [d|]; [|done]. simpl.
  destruct (py_truthy d && negb (py_eq (status t) (VStr "done"))); simpl.
  - destruct (strptime_date d) as [date|]; [|done]. simpl.
    destruct (ltb date today); apply IH.
  - apply IH.
Qed.

Lemma get_overdue_tasks_ok (self : Project) (l : list Task) :
  get_overdue_tasks self = Ok l →
  forallb deadline_readable (tasks self) = true ∧
  l = List.filter (overdue_spec (current_date self)) (tasks self).
Proof.
  unfold get_overdue_tasks. intros H.
  pose proof (overdue_loop_readable _ _ _ _ H) as Hr.
  rewrite overdue_loop_spec in H by done. by injection H as <-.
Qed.



Lemma filter_sublist {A} (f g : A → bool) (l : list A) :
  (∀ x, f x = true → g x = true) → sublist (List.filter f l) (List.filter g l).
Proof.
  intros Hfg. induction l as [|x l IH]; simpl; [constructor|].
  destruct (f x) eqn:Hf.
  - rewrite (Hfg x Hf). by constructor.
  - destruct (g x); [by constructor|done].
Qed.

Lemma overdue_spec_active (today : datetime) (t : Task) :
  overdue_spec today t = true → active t = true.
Proof.
  unfold overdue_spec, active.
  destruct (bool_decide _); [|done]. simpl.
  destruct (attrs t !! "deadline") as [d|]; [|done].
  destruct (py_truthy d); [|done]. simpl.
  by destruct (negb _).
Qed.

Lemma overdue_spec_later (d1 d2 : datetime) (t : Task) :
  ltb d2 d1 = false → overdue_spec d1 t = true → overdue_spec d2 t = true.
Proof.
  intros Hle. unfold overdue_spec.
  destruct (bool_decide _); [|done]. simpl.
  destruct (attrs t !! "deadline") as [d|]; [|done].
  destruct (py_truthy d && negb _); [|done]. simpl.
  destruct (strptime_date d) as [date|]; [|done].
  intros Hlt. destruct (ltb date d2) eqn:E; [done|].
  by rewrite (datetime_ltb_negtrans _ _ _ Hle E) in Hlt.
Qed.

(** X14. Every overdue task is an active task: the overdue tasks are
    a selection from [get_active_tasks], in the same order. *)
Theorem overdue_are_active (self : Project) (l : list Task) :
  get_overdue_tasks self = Ok l → sublist l (get_active_tasks self).
Proof.
  intros H. apply get_overdue_tasks_ok in H as [_ ->].
  rewrite get_active_tasks_filter.
  apply filter_sublist, overdue_spec_active.
Qed.

(** X15. Time only adds overdue tasks: when the report succeeds on
    one day it succeeds on any other, and a task overdue on a day is
    overdue on every later day, the order of the report being kept. *)
Theorem overdue_monotone (self : Project) (d1 d2 : datetime) (l1 : list Task) :
  ltb d2 d1 = false →
  get_overdue_tasks (on_date self d1) = Ok l1 →
  ∃ l2, get_overdue_tasks (on_date self d2) = Ok l2 ∧ sublist l1 l2.
Proof.
  intros Hle H. apply get_overdue_tasks_ok in H as [Hr ->]. simpl in *.
  exists (List.filter (overdue_spec d2) (tasks self)). split.
  - unfold get_overdue_tasks. simpl. by rewrite overdue_loop_spec.
  - apply filter_sublist. intros t. by apply overdue_spec_later.
Qed.

End OverdueTime.


Lemma overdue_are_active_witness :
  sublist [pending_task] (get_active_tasks (on_date twice_project june_15)).
Proof. apply (overdue_are_active (on_date twice_project june_15) [pending_task]). reflexivity. Defined.

Lemma overdue_monotone_witness :
  ∃ l2, get_overdue_tasks (on_date twice_project june_15_noon) = Ok l2 ∧
        sublist [pending_task] l2.
Proof.
  apply (overdue_monotone twice_project june_15 june_15_noon [pending_task]); reflexivity.
Defined.

(* ===================================================================== *)
(** * Sorting by creation time, sorting again, and keys that fail         *)
(* ===================================================================== *)

(** Sorting what is sorted. *)
Section SortedAlready.
Context {K' A : Type} (ltb : K' → K' → bool) (pkey : A → K').

Lemma insert_by_front (x : A) (l : list A) :
  Forall (key_le ltb pkey x) l → insert_by ltb pkey x l = x :: l.
Proof.
  destruct 1 as [|y l Hy _]; [done|]. simpl.
  unfold key_le in Hy. by rewrite Hy.
Qed.

Lemma stable_sort_sorted_id (l : list A) :
  StronglySorted (key_le ltb pkey) l → stable_sort ltb pkey l = l.
Proof.
  induction 1 as [|x l _ IH Hx]; [done|]. simpl.
  rewrite IH. by apply insert_by_front.
Qed.
End SortedAlready.

Section SortCreated.
Import Datetime.

Local Abbreviation pair_up := (λ t : Task, (t, t)).

Lemma sort_insert_created (x : Task) (l : list Task) :
  sort_insert Task_lt (x, x) (pair_up <$> l) = Ok (pair_up <$> insert_by ltb created x l).
Proof.
  induction l as [|y l IH]; [done|].
  csimpl. unfold Task_lt at 1. simpl.
  destruct (ltb (created y) (created x)); [|done].
  fold Task_lt. by rewrite IH.
Qed.

Lemma sort_pairs_created (l : list Task) :
  sort_pairs Task_lt (pair_up <$> l) = Ok (pair_up <$> stable_sort ltb created l).
Proof.
  induction l as [|x l IH]; [done|].
  csimpl. rewrite IH. simpl. apply sort_insert_created.
Qed.

Lemma list_sort_created (l : list Task) :
  list_sort Task_lt Ok l = Ok (stable_sort ltb created l).
Proof.
  unfold list_sort.
  rewrite (result_mapM_ok _ pair_up) by (by apply Forall_forall).
  simpl. rewrite sort_pairs_created. simpl. f_equal.
  rewrite <- list_fmap_compose. apply list_fmap_id.
Qed.

Lemma sort_tasks_created_eq (criterion : string) (self : Project) (w : World) :
  criterion ≠ "deadline" → criterion ≠ "priority" →
  sort_tasks criterion (self, w) =
    (Ok (), (with_tasks self (stable_sort ltb created (tasks self)),
             print_line w ("Zadania posortowane wedlug: " +:+ criterion))).
Proof.
  intros Hd Hp. unfold sort_tasks. erewrite bind_ok by reflexivity. simpl.
  apply String.eqb_neq in Hd, Hp. rewrite Hd, Hp, list_sort_created. reflexivity.
Qed.

(** X16. With any criterion but ["deadline"] and ["priority"],
    known or not, [sort_tasks] orders the collection by creation time and
    cannot fail: the new order is a rearrangement of the old one, no task
    stands before one created earlier, and tasks created at the same
    moment keep their order. *)
Theorem sort_tasks_created (criterion : string) (self : Project) (w : World) :
  criterion ≠ "deadline" → criterion ≠ "priority" →
  ∃ sorted,
    sort_tasks criterion (self, w) =
      (Ok (), (with_tasks self sorted,
               print_line w ("Zadania posortowane wedlug: " +:+ criterion))) ∧
    sorted ≡ₚ tasks self ∧
    (∀ i j a b, sorted !! i = Some a → sorted !! j = Some b → i < j →
                ltb (created b) (created a) = false) ∧
    (∀ d, with_key created d sorted = with_key created d (tasks self)).
Proof.
  intros Hd Hp. exists (stable_sort ltb created (tasks self)).
  split; [by apply sort_tasks_created_eq|]. split; [apply stable_sort_perm|]. split.
  - intros i j a b Hi Hj Hij.
    pose proof (sorted_lookup ltb created _ i j a b
      (stable_sort_sorted _ _ datetime_ltb_asym datetime_ltb_negtrans _) Hi Hj Hij) as Hle.
    exact Hle.
  - intros d. apply stable_sort_with_key, datetime_ltb_asym.
Qed.

(** X17. Sorting by creation time a second time changes nothing. *)
Theorem sort_tasks_created_again (criterion : string) (self : Project) (w : World) :
  criterion ≠ "deadline" → criterion ≠ "priority" →
  tasks ((sort_tasks criterion ;; sort_tasks criterion) (self, w)).2.1 =
  tasks (sort_tasks criterion (self, w)).2.1.
Proof.
  intros Hd Hp.
  erewrite bind_ok by (by apply sort_tasks_created_eq).
  rewrite !sort_tasks_created_eq by done. simpl.
  apply stable_sort_sorted_id, stable_sort_sorted;
    [apply datetime_ltb_asym|apply datetime_ltb_negtrans].
Qed.

Lemma priority_key_unhashable (t : Task) :
  priority_hashable t = false → priority_key t = Raise TypeError.
Proof.
  unfold priority_hashable, priority_key, getattr_default, priority_order_get.
  destruct (attrs t !! "priority") as [v|]; [|done]. simpl. by intros ->.
Qed.

Lemma priority_key_raises (t : Task) (e : exn) :
  priority_key t = Raise e → e = TypeError.
Proof.
  unfold priority_key, priority_order_get.
  destruct (hashable _); simpl; [done|]. by intros [= <-].
Qed.

Lemma keys_raise (l : list Task) :
  forallb priority_hashable l = false →
  result_mapM (λ x, k ← priority_key x; Ok (k, x)) l = Raise TypeError.
Proof.
  induction l as [|t l IH]; [done|]. simpl.
  destruct (priority_hashable t) eqn:Ht; simpl.
  - intros Hl. rewrite (IH Hl).
    destruct (priority_key t) as [k|e] eqn:Hk; simpl; [done|].
    by rewrite (priority_key_raises _ _ Hk).
  - intros _. by rewrite priority_key_unhashable.
Qed.

(** X18. A priority that cannot be looked up in [PRIORITY_ORDER] (a
    list or a mapping) makes sorting by priority raise [TypeError] while
    the keys are computed: the collection keeps its order and nothing is
    printed. *)
Theorem sort_tasks_priority_key_fails (self : Project) (w : World) :
  forallb priority_hashable (tasks self) = false →
  sort_tasks "priority" (self, w) = (Raise TypeError, (self, w)).
Proof.
  intros H. rewrite sort_tasks_priority_eq. unfold list_sort.
  by rewrite keys_raise.
Qed.

End SortCreated.

Lemma sort_tasks_created_witness :
  ∃ sorted,
    sort_tasks "created" (twice_project, sample_world) =
      (Ok (), (with_tasks twice_project sorted,
               print_line sample_world ("Zadania posortowane wedlug: " +:+ "created"))) ∧
    sorted ≡ₚ tasks twice_project ∧
    (∀ i j a b, sorted !! i = Some a → sorted !! j = Some b → i < j →
                Datetime.ltb (created b) (created a) = false) ∧
    (∀ d, with_key created d sorted = with_key created d (tasks twice_project)).
Proof. apply (sort_tasks_created "created" twice_project sample_world); discriminate. Defined.

Lemma sort_tasks_created_again_witness :
  tasks ((sort_tasks "age" ;; sort_tasks "age") (twice_project, sample_world)).2.1 =
  tasks (sort_tasks "age" (twice_project, sample_world)).2.1.
Proof. apply (sort_tasks_created_again "age" twice_project sample_world); discriminate. Defined.

Lemma sort_tasks_priority_key_fails_witness :
  sort_tasks "priority" (listed_priority_project, sample_world) =
    (Raise TypeError, (listed_priority_project, sample_world)).
Proof. apply (sort_tasks_priority_key_fails listed_priority_project sample_world). reflexivity. Defined.

(* ===================================================================== *)
(** * Statuses outside [STATUS], equality, and what a round trip keeps    *)
(* ===================================================================== *)

Section TaskValues.

Lemma py_eq_text (s : string) (v : value) : py_eq (VStr s) v = true → v = VStr s.
Proof. destruct v; simpl; try done. by intros ->%String.eqb_eq. Qed.

Lemma py_eq_refl_hashable (v : value) : hashable v = true → py_eq v v = true.
Proof.
  destruct v; simpl; try done; intros _.
  - by destruct b.
  - apply Z.eqb_refl.
  - apply String.eqb_refl.
Qed.

Lemma set_status_same (t : Task) : set_status t (status t) = t.
Proof. by destruct t. Qed.

(** X19. [next_status] has two outcomes.  On a task whose status is
    one of [STATUS] it returns, the new status is again one of [STATUS]
    and nothing else has changed.  On any other status, which
    [from_dict] and the constructors accept, it raises [ValueError]. *)
Theorem next_status_cases (t : Task) :
  ((status t ∈ STATUS) ∧ (∃ s, s ∈ STATUS ∧ next_status t = Ok (set_status t s))) ∨
  ((status t ∉ STATUS) ∧ next_status t = Raise (ValueError NotInList)).
Proof.
  destruct (py_eq (VStr "pending") (status t)) eqn:E1;
    [|destruct (py_eq (VStr "in progress") (status t)) eqn:E2;
      [|destruct (py_eq (VStr "done") (status t)) eqn:E3]].
  - apply py_eq_text in E1. left. rewrite E1. split; [unfold STATUS; set_solver|].
    exists (VStr "in progress"). split; [|by apply next_status_pending].
    unfold STATUS. set_solver.
  - apply py_eq_text in E2. left. rewrite E2. split; [unfold STATUS; set_solver|].
    exists (VStr "done"). split; [|by apply next_status_in_progress].
    unfold STATUS. set_solver.
  - apply py_eq_text in E3. left. rewrite E3. split; [unfold STATUS; set_solver|].
    exists (VStr "done"). split; [unfold STATUS; set_solver|].
    rewrite next_status_done by done. by rewrite <- E3, set_status_same.
  - right. split.
    + unfold STATUS. rewrite !elem_of_cons, elem_of_nil.
      intros [H|[H|[H|[]]]]; [by rewrite H in E1|by rewrite H in E2|by rewrite H in E3].
    + apply next_status_unknown. unfold STATUS. by repeat constructor.
Qed.

(** X20. Serialising a task and deserialising the result always
    succeeds and keeps class, title, description and status, and the
    deadline of a [RegularTask].  The creation time is not kept: it is the
    time of the call. *)
Theorem from_dict_to_dict_keeps (T : Task) (d : value) (w : World) :
  to_dict T = Ok d →
  ∃ T' w', from_dict d w = (Ok T', w') ∧ same_core T T' ∧
    created T' = clock w (ticks w) ∧
    (cls T = RegularTask → attrs T' !! "deadline" = attrs T !! "deadline").
Proof.
  intros Hd. exists (reloaded T w), (advance (clock_reads T) w).
  split; [by apply from_dict_to_dict|]. split; [done|]. split; [done|].
  intros Hc. unfold reloaded. rewrite Hc. simpl.
  unfold to_dict, getattr in Hd. rewrite Hc in Hd.
  destruct (attrs T !! "deadline"); [|done].
  by rewrite lookup_singleton_eq.
Qed.

(** X21. A task that went through [to_dict] and [from_dict] compares
    equal, with [==], to the task it came from, whatever was lost on the
    way: [__eq__] looks at title and status only. *)
Theorem Task_eq_round_trip (T T' : Task) (d : value) (w w' : World) :
  hashable (title T) = true → hashable (status T) = true →
  to_dict T = Ok d → from_dict d w = (Ok T', w') →
  Task_eq T' T = true ∧ Task_eq T T' = true.
Proof.
  intros Hti Hst Hd H. rewrite (from_dict_to_dict T w d Hd) in H.
  injection H as <- _. unfold Task_eq. simpl.
  by rewrite !py_eq_refl_hashable.
Qed.

End TaskValues.

Lemma from_dict_to_dict_keeps_witness :
  ∃ T' w', from_dict rent_dict sample_world = (Ok T', w') ∧ same_core rent_task T' ∧
    created T' = clock sample_world (ticks sample_world) ∧
    (cls rent_task = RegularTask → attrs T' !! "deadline" = attrs rent_task !! "deadline").
Proof. apply (from_dict_to_dict_keeps rent_task rent_dict sample_world). reflexivity. Defined.

Lemma Task_eq_round_trip_witness :
  Task_eq (reloaded rent_task sample_world) rent_task = true ∧
  Task_eq rent_task (reloaded rent_task sample_world) = true.
Proof.
  apply (Task_eq_round_trip rent_task (reloaded rent_task sample_world) rent_dict
           sample_world (advance (clock_reads rent_task) sample_world)); reflexivity.
Defined.

(** A status that [from_dict] accepts and [next_status] does not. *)
Example next_status_paused : next_status paused_task = Raise (ValueError NotInList).
Proof. reflexivity. Qed.

(* ===================================================================== *)
(** * Saving and loading                                                  *)
(* ===================================================================== *)

Section SaveLoad.

Ltac step := erewrite bind_ok by reflexivity.

(** [load] on a stored document that can be read. *)
Lemma load_run filename (self : Project) (w w' : World) d dt entries ts :
  files w !! filename = Some (JsonText (VDict d)) →
  match dict_lookup "current_date" d with
  | Some c => strptime_datetime c = Ok dt
  | None => dt = current_date self
  end →
  default (VList []) (dict_lookup "tasks" d) = VList entries →
  mapM from_dict entries w = (Ok ts, w') →
  load filename (self, w) =
    (Ok (), (mkProject (default (name self) (dict_lookup "name" d)) ts dt,
             print_line w' ("Wczytano z " +:+ filename))).
Proof.
  intros Hfile Hdate Htasks Hm.
  unfold load, try_except.
  erewrite bind_ok by (unfold io, read_json; simpl; by rewrite Hfile).
  do 4 step. simpl.
  destruct (dict_lookup "current_date" d) as [c|] eqn:Hc; simpl.
  - erewrite bind_ok; cycle 1.
    { erewrite bind_ok by (unfold lift; simpl; by rewrite ?Hc).
      erewrite bind_ok by (unfold lift; by rewrite ?Hdate). reflexivity. }
    erewrite bind_ok by (unfold lift; simpl; by rewrite Htasks).
    erewrite bind_ok by (unfold io; simpl; by rewrite Hm).
    reflexivity.
  - step.
    erewrite bind_ok by (unfold lift; simpl; by rewrite Htasks).
    erewrite bind_ok by (unfold io; simpl; by rewrite Hm).
    subst dt. reflexivity.
Qed.

(** X22. A successful [load] replaces the collection: the tasks of the
    project are those of the document and none of the old ones, also when
    the document has no ["tasks"] at all; the name and the current date
    are those of the document where it has them and stay otherwise. *)
Theorem load_replaces filename (self : Project) (w w' : World) d dt entries ts :
  files w !! filename = Some (JsonText (VDict d)) →
  match dict_lookup "current_date" d with
  | Some c => strptime_datetime c = Ok dt
  | None => dt = current_date self
  end →
  default (VList []) (dict_lookup "tasks" d) = VList entries →
  mapM from_dict entries w = (Ok ts, w') →
  ∃ self' w'', load filename (self, w) = (Ok (), (self', w'')) ∧
    tasks self' = ts ∧ length ts = length entries ∧
    name self' = default (name self) (dict_lookup "name" d) ∧
    current_date self' = dt ∧
    stdout w'' = stdout w ++ ["Wczytano z " +:+ filename].
Proof.
  intros Hfile Hdate Htasks Hm. eexists _, _.
  split; [by eapply load_run|]. simpl. repeat split.
  - clear -Hm. revert ts w w' Hm. induction entries as [|x l IH]; intros ts w w' Hm; simpl in *.
    { by injection Hm as <- _. }
    unfold mbind, M_mbind, M_bind in Hm.
    destruct (from_dict x w) as [[t|e] w1]; [|done].
    destruct (mapM from_dict l w1) as [[ts'|e] w2] eqn:Hl; [|done].
    injection Hm as <- _. simpl. f_equal. by eapply IH.
  - f_equal.
    exact (preserves_mapM stdout from_dict entries from_dict_keeps_console _ _ _ Hm).
Qed.

Lemma save_run filename (self : Project) (w : World) :
  save filename (self, w) =
    match to_json self with
    | Ok doc =>
        (Ok (), (self, print_line (with_file w filename (JsonText doc))
                         ("Zapisano do " +:+ filename)))
    | Raise e => (Raise e, (self, with_file w filename OtherText))
    end.
Proof.
  unfold save. do 2 step. destruct self as [nm ts cd]. simpl.
  unfold mbind at 1, M_mbind, M_bind, lift.
  destruct (to_json _) as [doc|e]; [|done].
  unfold mbind, M_mbind, M_bind, io, write_file, print, with_file, print_line. simpl.
  by rewrite insert_insert_eq.
Qed.

Lemma to_dict_raises (t : Task) (e : exn) : to_dict t = Raise e → e = AttributeError.
Proof.
  unfold to_dict, getattr. destruct (cls t).
  - destruct (attrs t !! "deadline"); simpl; [done|by intros [= <-]].
  - destruct (attrs t !! "priority"); simpl; [done|by intros [= <-]].
  - destruct (attrs t !! "interval_days"); simpl; [|by intros [= <-]].
    destruct (attrs t !! "start_date"); simpl; [done|by intros [= <-]].
Qed.

Lemma to_json_unserialisable (self : Project) :
  forallb serialisable (tasks self) = false → to_json self = Raise AttributeError.
Proof.
  unfold to_json. intros H.
  assert (result_mapM to_dict (tasks self) = Raise AttributeError) as ->; [|done].
  induction (tasks self) as [|t ts IH]; [done|]. simpl in *.
  rewrite <- to_dict_serialisable in H.
  destruct (to_dict t) as [d|e] eqn:Ht; simpl in *.
  - by rewrite IH.
  - by rewrite (to_dict_raises _ _ Ht).
Qed.

(** X23. [save] opens the file for writing before it builds the
    document.  When a task lacks an attribute its class serialises, the
    call raises [AttributeError] and what the file held is lost: it is
    left without a document, and [load] of it raises the decoding
    [ValueError], which [load] does not handle, and leaves the loading
    project as it is. *)
Theorem save_failure_truncates filename (self : Project) (w : World) :
  forallb serialisable (tasks self) = false →
  save filename (self, w) = (Raise AttributeError, (self, with_file w filename OtherText)) ∧
  ∀ P, load filename (P, with_file w filename OtherText) =
         (Raise (ValueError JSONDecodeError), (P, with_file w filename OtherText)).
Proof.
  intros H. split.
  - by rewrite save_run, to_json_unserialisable.
  - intros P. unfold load, try_except.
    erewrite bind_raise
      by (unfold io, read_json, with_file; simpl; by rewrite lookup_insert_eq).
    reflexivity.
Qed.

Lemma reload_all_same_core (ts : list Task) (w : World) :
  Forall2 same_core ts (reload_all ts w).1.
Proof.
  revert w. induction ts as [|T ts IH]; intros w; simpl; [constructor|].
  specialize (IH (advance (clock_reads T) w)).
  destruct (reload_all ts (advance (clock_reads T) w)) as [l w1]. simpl in *.
  by constructor.
Qed.

Lemma reload_all_keeps (ts : list Task) (w : World) :
  files (reload_all ts w).2 = files w ∧ stdout (reload_all ts w).2 = stdout w.
Proof.
  revert w. induction ts as [|T ts IH]; intros w; simpl; [done|].
  specialize (IH (advance (clock_reads T) w)).
  by destruct (reload_all ts (advance (clock_reads T) w)) as [l w1].
Qed.

(** X24. Saving a project and loading the file again succeeds and
    gives the name, the current date cut to the second, and as many tasks
    in the same order, each with the class, title, description and status
    it had.  The file holds the document, and both calls report. *)
Theorem save_then_load filename (self : Project) (w : World) (doc : value) :
  to_json self = Ok doc →
  (1000 ≤ year (current_date self))%Z → Datetime.valid (current_date self) = true →
  ∃ self' w', (save filename ;; load filename) (self, w) = (Ok (), (self', w')) ∧
    name self' = name self ∧
    current_date self' = Datetime.to_seconds (current_date self) ∧
    Forall2 same_core (tasks self) (tasks self') ∧
    files w' = <[filename := JsonText doc]> (files w) ∧
    stdout w' = stdout w ++ ["Zapisano do " +:+ filename; "Wczytano z " +:+ filename].
Proof.
  intros Hdoc Hy Hv.
  erewrite bind_ok by (by rewrite save_run, Hdoc).
  unfold to_json in Hdoc.
  destruct (result_mapM to_dict (tasks self)) as [ds|] eqn:Hds; simpl in Hdoc; [|done].
  injection Hdoc as <-.
  set (w1 := print_line _ _).
  eexists _, _. split.
  - eapply (load_run filename self w1 _ _ (Datetime.to_seconds (current_date self)) ds).
    + unfold w1, with_file. simpl. apply lookup_insert_eq.
    + change (strptime_datetime (VStr (strftime_datetime (current_date self))) =
              Ok (Datetime.to_seconds (current_date self))).
      by apply strptime_strftime_datetime.
    + reflexivity.
    + by apply mapM_from_dict_to_dict.
  - simpl. destruct (reload_all_keeps (tasks self) w1) as [Hf Hs].
    repeat split; [apply reload_all_same_core|by rewrite Hf|].
    rewrite Hs. unfold w1. simpl. by rewrite <- app_assoc.
Qed.

(** X25. [from_json] on the document [to_json] built gives a project
    with the same name, the current date cut to the second, and as many
    tasks in the same order, each with the class, title, description and
    status it had. *)
Theorem from_json_to_json_keeps (P : Project) (w : World) (doc : value) :
  to_json P = Ok doc →
  (1000 ≤ year (current_date P))%Z → Datetime.valid (current_date P) = true →
  ∃ P' w', from_json doc w = (Ok P', w') ∧
    name P' = name P ∧
    current_date P' = Datetime.to_seconds (current_date P) ∧
    Forall2 same_core (tasks P) (tasks P').
Proof.
  intros Hdoc Hy Hv. eexists _, _.
  split; [by apply from_json_to_json|]. simpl.
  repeat split. apply reload_all_same_core.
Qed.

(** [from_json] on a document that can be read. *)
Lemma from_json_run (w w' : World) d dt entries ts :
  match dict_lookup "current_date" d with
  | Some c => strptime_datetime c = Ok dt
  | None => dt = clock w (ticks w)
  end →
  default (VList []) (dict_lookup "tasks" d) = VList entries →
  mapM from_dict entries (advance 1 w) = (Ok ts, w') →
  from_json (VDict d) w =
    (Ok (mkProject (default (VStr "Unnamed Project") (dict_lookup "name" d)) ts dt), w').
Proof.
  intros Hdate Htasks Hm. unfold from_json.
  do 3 step. simpl.
  destruct (dict_lookup "current_date" d) as [c|] eqn:Hc; simpl.
  - erewrite bind_ok; cycle 1.
    { erewrite bind_ok by (unfold lift; simpl; by rewrite ?Hc).
      erewrite bind_ok by (unfold lift; by rewrite ?Hdate). reflexivity. }
    erewrite bind_ok by (unfold lift; simpl; by rewrite Htasks).
    erewrite bind_ok by exact Hm.
    reflexivity.
  - step.
    erewrite bind_ok by (unfold lift; simpl; by rewrite Htasks).
    erewrite bind_ok by exact Hm.
    subst dt. reflexivity.
Qed.

(** X26. What [from_json] and [load] do with a document that leaves
    things out differs in the name: [from_json] calls the project
    ["Unnamed Project"], [load] keeps the name it has.  Both keep the
    date they start from (the time of the call, the current date of the
    project) and take the tasks to be none. *)
Theorem missing_parts filename (self : Project) (w : World) d :
  files w !! filename = Some (JsonText (VDict d)) →
  dict_lookup "name" d = None → dict_lookup "current_date" d = None →
  dict_lookup "tasks" d = None →
  from_json (VDict d) w =
    (Ok (mkProject (VStr "Unnamed Project") [] (clock w (ticks w))), advance 1 w) ∧
  load filename (self, w) =
    (Ok (), (with_tasks self [], print_line w ("Wczytano z " +:+ filename))).
Proof.
  intros Hfile Hn Hd Ht. split.
  - rewrite (from_json_run w (advance 1 w) d (clock w (ticks w)) [] []);
      rewrite ?Hn, ?Hd, ?Ht; done.
  - rewrite (load_run filename self w w d (current_date self) [] []);
      rewrite ?Hn, ?Hd, ?Ht; done.
Qed.

End SaveLoad.

Lemma load_replaces_witness :
  ∃ self' w'', load "tasks.json" (twice_project, rent_disk) = (Ok (), (self', w'')) ∧
    tasks self' = [reloaded rent_task rent_disk] ∧
    length [reloaded rent_task rent_disk] = length [rent_dict] ∧
    name self' = default (name twice_project)
                   (dict_lookup "name" [("name", VStr "home");
                      ("current_date", VStr "2024-06-10 00:00:00");
                      ("tasks", VList [rent_dict])]) ∧
    current_date self' = mkDatetime 2024 6 10 0 0 0 0 ∧
    stdout w'' = stdout rent_disk ++ ["Wczytano z " +:+ "tasks.json"].
Proof.
  apply (load_replaces "tasks.json" twice_project rent_disk
           (advance 1 rent_disk)
           [("name", VStr "home"); ("current_date", VStr "2024-06-10 00:00:00");
            ("tasks", VList [rent_dict])]
           (mkDatetime 2024 6 10 0 0 0 0) [rent_dict] [reloaded rent_task rent_disk]);
    reflexivity.
Defined.

Lemma save_failure_truncates_witness :
  save "tasks.json" (stripped_project, rent_disk) =
    (Raise AttributeError, (stripped_project, with_file rent_disk "tasks.json" OtherText)) ∧
  ∀ P, load "tasks.json" (P, with_file rent_disk "tasks.json" OtherText) =
         (Raise (ValueError JSONDecodeError),
          (P, with_file rent_disk "tasks.json" OtherText)).
Proof. apply (save_failure_truncates "tasks.json" stripped_project rent_disk). reflexivity. Defined.

Lemma save_then_load_witness :
  ∃ self' w', (save "tasks.json" ;; load "tasks.json") (rent_project, sample_world) =
                (Ok (), (self', w')) ∧
    name self' = name rent_project ∧
    current_date self' = Datetime.to_seconds (current_date rent_project) ∧
    Forall2 same_core (tasks rent_project) (tasks self') ∧
    files w' = <["tasks.json" := JsonText rent_document]> (files sample_world) ∧
    stdout w' = stdout sample_world ++
                  ["Zapisano do " +:+ "tasks.json"; "Wczytano z " +:+ "tasks.json"].
Proof.
  apply (save_then_load "tasks.json" rent_project sample_world rent_document);
    [reflexivity|simpl; lia|reflexivity].
Defined.

Lemma from_json_to_json_keeps_witness :
  ∃ P' w', from_json rent_document sample_world = (Ok P', w') ∧
    name P' = name rent_project ∧
    current_date P' = Datetime.to_seconds (current_date rent_project) ∧
    Forall2 same_core (tasks rent_project) (tasks P').
Proof.
  apply (from_json_to_json_keeps rent_project sample_world rent_document);
    [reflexivity|simpl; lia|reflexivity].
Defined.

Lemma missing_parts_witness :
  from_json (VDict []) (with_file sample_world "empty.json" (JsonText (VDict []))) =
    (Ok (mkProject (VStr "Unnamed Project") []
           (clock (with_file sample_world "empty.json" (JsonText (VDict [])))
                  (ticks (with_file sample_world "empty.json" (JsonText (VDict [])))))),
     advance 1 (with_file sample_world "empty.json" (JsonText (VDict [])))) ∧
  load "empty.json" (twice_project, with_file sample_world "empty.json" (JsonText (VDict []))) =
    (Ok (), (with_tasks twice_project [],
             print_line (with_file sample_world "empty.json" (JsonText (VDict [])))
               ("Wczytano z " +:+ "empty.json"))).
Proof.
  apply (missing_parts "empty.json" twice_project
           (with_file sample_world "empty.json" (JsonText (VDict []))) []); reflexivity.
Defined.

(* ===================================================================== *)
(** * The registry, the constructors and the shape of a serialised task   *)
(* ===================================================================== *)

Section Classes.
Import Datetime.

(** X27. The registry built by [__init_subclass__] holds each
    concrete class under its own name and nothing else; the base class
    is not in it. *)
Theorem registry_exact (id : string) (c : task_class) :
  (registry !! id = Some c ↔ id = class_name c) ∧ registry !! "Task" = None.
Proof.
  split; [|done]. split.
  - apply registry_lookup_Some.
  - intros ->. apply registry_class.
Qed.

(** X28. What a constructor returns is fit for the rest of the
    program: the task has the attributes its class serialises, its
    priority can be looked up, and title, description and status are the
    arguments as given (the status is not checked against [STATUS]); the
    creation time is the time of the call. *)
Theorem constructed_tasks (ti de st x y : value) (w w' : World) (t : Task) :
  RegularTask_init ti de st x w = (Ok t, w') ∨
  PriorityTask_init ti de st x w = (Ok t, w') ∨
  RecurringTask_init ti de st x y w = (Ok t, w') →
  serialisable t = true ∧ priority_hashable t = true ∧
  title t = ti ∧ description t = de ∧ status t = st ∧
  created t = clock w (ticks w).
Proof.
  intros [H|[H|H]].
  - injection H as <- _. done.
  - unfold PriorityTask_init in H.
    erewrite bind_ok in H by reflexivity.
    destruct x; try done. injection H as <- _. done.
  - unfold RecurringTask_init in H.
    erewrite bind_ok in H by reflexivity. cbv zeta in H.
    destruct (py_truthy y); injection H as <- _; done.
Qed.

(** X29. The mapping [to_dict] returns: the class name under
    ["task_type"]; title, description, status and the creation time, as a
    text that reads back to the second, inside ["kwargs"].  No
    ["created"] stands beside ["kwargs"], where [from_dict] looks for it.
    The deadline of a [RegularTask] is inside ["kwargs"]; the priority of
    a [PriorityTask] is beside it and not inside. *)
Theorem to_dict_shape (T : Task) (d : value) :
  to_dict T = Ok d →
  (1000 ≤ year (created T))%Z → valid (created T) = true →
  py_getitem d "task_type" = Ok (VStr (class_name (cls T))) ∧
  py_contains "created" d = Ok false ∧
  ∃ kw s, py_getitem d "kwargs" = Ok (VDict kw) ∧
    dict_lookup "title" kw = Some (title T) ∧
    dict_lookup "description" kw = Some (description T) ∧
    dict_lookup "status" kw = Some (status T) ∧
    dict_lookup "created" kw = Some (VStr s) ∧
    strptime_datetime (VStr s) = Ok (to_seconds (created T)) ∧
    (cls T = RegularTask → dict_lookup "deadline" kw = attrs T !! "deadline") ∧
    (cls T = PriorityTask →
       py_getitem d "priority" = getattr T "priority" ∧ dict_lookup "priority" kw = None).
Proof.
  intros Hd Hy Hv. pose proof (strptime_strftime_datetime (created T) Hy Hv) as Hs.
  destruct T as [c ti de st cr ats].
  cbn [created cls title description status attrs] in *.
  unfold to_dict, getattr in Hd. cbn [cls attrs] in Hd.
  destruct c.
  - destruct (ats !! "deadline") as [dl|] eqn:Hdl; [|done].
    cbv [mbind result_mbind result_bind] in Hd. injection Hd as <-.
    split; [reflexivity|]. split; [reflexivity|].
    exists [("title", ti); ("description", de); ("status", st);
            ("created", VStr (strftime_datetime cr)); ("deadline", dl)],
           (strftime_datetime cr).
    split; [reflexivity|]. split; [reflexivity|]. split; [reflexivity|].
    split; [reflexivity|]. split; [reflexivity|]. split; [exact Hs|].
    split; [intros _; reflexivity|done].
  - destruct (ats !! "priority") as [p|] eqn:Hp; [|done].
    cbv [mbind result_mbind result_bind] in Hd. injection Hd as <-.
    split; [reflexivity|]. split; [reflexivity|].
    exists [("title", ti); ("description", de); ("status", st);
            ("created", VStr (strftime_datetime cr))],
           (strftime_datetime cr).
    split; [reflexivity|]. split; [reflexivity|]. split; [reflexivity|].
    split; [reflexivity|]. split; [reflexivity|]. split; [exact Hs|].
    split; [done|]. intros _. unfold getattr. cbn [attrs]. rewrite ?Hp.
    split; reflexivity.
  - destruct (ats !! "interval_days") as [i|]; [|done].
    destruct (ats !! "start_date") as [sd|]; [|done].
    cbv [mbind result_mbind result_bind] in Hd. injection Hd as <-.
    split; [reflexivity|]. split; [reflexivity|].
    exists [("title", ti); ("description", de); ("status", st);
            ("created", VStr (strftime_datetime cr))],
           (strftime_datetime cr).
    split; [reflexivity|]. split; [reflexivity|]. split; [reflexivity|].
    split; [reflexivity|]. split; [reflexivity|]. split; [exact Hs|].
    split; done.
Qed.

End Classes.

Lemma constructed_tasks_witness :
  serialisable (fresh_task PriorityTask (VStr "a") (VStr "") (VStr "paused") sample_world) = true ∧
  priority_hashable (fresh_task PriorityTask (VStr "a") (VStr "") (VStr "paused") sample_world) = true ∧
  title (fresh_task PriorityTask (VStr "a") (VStr "") (VStr "paused") sample_world) = VStr "a" ∧
  description (fresh_task PriorityTask (VStr "a") (VStr "") (VStr "paused") sample_world) = VStr "" ∧
  status (fresh_task PriorityTask (VStr "a") (VStr "") (VStr "paused") sample_world) = VStr "paused" ∧
  created (fresh_task PriorityTask (VStr "a") (VStr "") (VStr "paused") sample_world) =
    clock sample_world (ticks sample_world).
Proof.
  apply (constructed_tasks (VStr "a") (VStr "") (VStr "paused") (VStr "MEDIUM") VNone
           sample_world (advance 1 sample_world)).
  right. left. reflexivity.
Defined.

Lemma to_dict_shape_witness :
  py_getitem rent_dict "task_type" = Ok (VStr (class_name (cls rent_task))) ∧
  py_contains "created" rent_dict = Ok false ∧
  ∃ kw s, py_getitem rent_dict "kwargs" = Ok (VDict kw) ∧
    dict_lookup "title" kw = Some (title rent_task) ∧
    dict_lookup "description" kw = Some (description rent_task) ∧
    dict_lookup "status" kw = Some (status rent_task) ∧
    dict_lookup "created" kw = Some (VStr s) ∧
    strptime_datetime (VStr s) = Ok (Datetime.to_seconds (created rent_task)) ∧
    (cls rent_task = RegularTask → dict_lookup "deadline" kw = attrs rent_task !! "deadline") ∧
    (cls rent_task = PriorityTask →
       py_getitem rent_dict "priority" = getattr rent_task "priority" ∧
       dict_lookup "priority" kw = None).
Proof. apply (to_dict_shape rent_task rent_dict); [reflexivity|simpl; lia|reflexivity]. Defined.

(* ===================================================================== *)
(** * Marking and the overdue report                                      *)
(* ===================================================================== *)

Section MarkOverdue.
Context (fmt : value → string).




End MarkOverdue.

